(** * ETF tracker: a shallow embedding of [etf_tracker.py]

    The script is one straight-line pipeline: read two comma separated
    text inputs, validate the weights, download closing prices, derive
    daily, cumulative and portfolio returns, derive four risk metrics and
    render them.  The embedding keeps that shape:

    - [PyStr]: the string methods the input collector calls
      ([split], [strip], [upper]);
    - [Scalar]: the arithmetic of the number type the script computes in,
      with two instances: [binary64] (the IEEE-754 doubles Python and
      pandas use, through Rocq's primitive floats, hence executable) and
      [exact] (the same operations on real numbers extended with the two
      infinities and NaN, without rounding);
    - [Pandas]: the pandas and numpy reductions and accumulations the
      script calls, with their skip-missing behaviour;
    - [Tracker]: the script itself, every assignment under its own name,
      and the whole run as a function from the inputs and the market-data
      provider to a trace of rendered events and a final status. *)

From Stdlib Require Import List String Ascii Bool Arith ZArith Lia.
From Stdlib Require Import QArith Qabs Reals Lra Permutation.
From Stdlib Require Import Floats Uint63.
Import ListNotations.

Set Implicit Arguments.

(** ** Python's string methods, on ASCII text

    A text is a [string] of characters below 128, the ticker symbols and
    numerals the inputs are made of; what Python does to other characters
    is outside the model. *)

Module PyStr.

(** [str.isspace] on one ASCII character: tab .. carriage return,
    the four separators 28 .. 31, and the blank. *)
Definition is_space (c : ascii) : bool :=
  let n := nat_of_ascii c in
  ((9 <=? n) && (n <=? 13)) || ((28 <=? n) && (n <=? 32)).

Definition is_lower (c : ascii) : bool :=
  let n := nat_of_ascii c in (97 <=? n) && (n <=? 122).

Definition upper_char (c : ascii) : ascii :=
  if is_lower c then ascii_of_nat (nat_of_ascii c - 32) else c.

(** [s.upper()] *)
Fixpoint upper (s : string) : string :=
  match s with
  | EmptyString => EmptyString
  | String c s' => String (upper_char c) (upper s')
  end.

Fixpoint lstrip (s : string) : string :=
  match s with
  | EmptyString => EmptyString
  | String c s' => if is_space c then lstrip s' else s
  end.

Fixpoint rstrip (s : string) : string :=
  match s with
  | EmptyString => EmptyString
  | String c s' =>
      match rstrip s' with
      | EmptyString => if is_space c then EmptyString else String c EmptyString
      | r => String c r
      end
  end.

(** [s.strip()] *)
Definition strip (s : string) : string := rstrip (lstrip s).

(** [s.split(sep)] for a one-character separator: the empty string
    splits into one empty field. *)
Fixpoint split (sep : ascii) (s : string) : list string :=
  match s with
  | EmptyString => [EmptyString]
  | String c s' =>
      if Ascii.eqb c sep then EmptyString :: split sep s'
      else match split sep s' with
           | [] => [String c EmptyString]
           | f :: fs => String c f :: fs
           end
  end.

Definition comma : ascii := ","%char.

End PyStr.

(** ** The number type *)

(** The operations the script applies to numbers.  [fltb x y] is [x < y]
    and [fleb x y] is [x <= y], both false as soon as one side is NaN. *)
Class Scalar (F : Type) : Type := {
  fadd : F -> F -> F;
  fsub : F -> F -> F;
  fmul : F -> F -> F;
  fdiv : F -> F -> F;
  fsqrt : F -> F;
  fabs : F -> F;
  fltb : F -> F -> bool;
  fleb : F -> F -> bool;
  fisnan : F -> bool;
  fnan : F;
  fpos_inf : F;
  fneg_inf : F;
  of_Z : Z -> F
}.

(** *** IEEE-754 binary64

    [float_of_Z] converts the integer constants of the script and the
    counts of entries, all far below 2^53, without rounding. *)

Definition float_of_Z (z : Z) : float :=
  match z with
  | Z0 => PrimFloat.zero
  | Zpos _ => PrimFloat.of_uint63 (Uint63.of_Z z)
  | Zneg p => PrimFloat.opp (PrimFloat.of_uint63 (Uint63.of_Z (Zpos p)))
  end.

#[global] Instance binary64 : Scalar float := {
  fadd := PrimFloat.add;
  fsub := PrimFloat.sub;
  fmul := PrimFloat.mul;
  fdiv := PrimFloat.div;
  fsqrt := PrimFloat.sqrt;
  fabs := PrimFloat.abs;
  fltb := PrimFloat.ltb;
  fleb := PrimFloat.leb;
  fisnan := PrimFloat.is_nan;
  fnan := PrimFloat.nan;
  fpos_inf := PrimFloat.infinity;
  fneg_inf := PrimFloat.neg_infinity;
  of_Z := float_of_Z
}.

(** *** Exact arithmetic with the IEEE special values *)

(** A real number, an infinity ([Inf true] is the negative one) or NaN.
    The arithmetic follows IEEE-754 on the special values and is exact on
    the finite ones; there is one zero, which counts as positive where a
    sign is needed. *)
Inductive xreal : Type :=
| Fin (r : R)
| Inf (neg : bool)
| NaN.

Definition Rltb (a b : R) : bool := if Rlt_dec a b then true else false.
Definition Rleb (a b : R) : bool := if Rle_dec a b then true else false.
Definition Reqb (a b : R) : bool := if Req_dec_T a b then true else false.

Module X.

Definition neg (x : xreal) : xreal :=
  match x with
  | Fin a => Fin (- a)
  | Inf s => Inf (negb s)
  | NaN => NaN
  end.

Definition add (x y : xreal) : xreal :=
  match x, y with
  | NaN, _ | _, NaN => NaN
  | Fin a, Fin b => Fin (a + b)
  | Inf s, Fin _ | Fin _, Inf s => Inf s
  | Inf s, Inf s' => if Bool.eqb s s' then Inf s else NaN
  end.

Definition sub (x y : xreal) : xreal := add x (neg y).

Definition mul (x y : xreal) : xreal :=
  match x, y with
  | NaN, _ | _, NaN => NaN
  | Fin a, Fin b => Fin (a * b)
  | Inf s, Fin a | Fin a, Inf s =>
      if Reqb a 0 then NaN else Inf (xorb s (Rltb a 0))
  | Inf s, Inf s' => Inf (xorb s s')
  end.

Definition div (x y : xreal) : xreal :=
  match x, y with
  | NaN, _ | _, NaN => NaN
  | Fin a, Fin b =>
      if Reqb b 0 then (if Reqb a 0 then NaN else Inf (Rltb a 0))
      else Fin (a / b)
  | Inf s, Fin a => Inf (xorb s (Rltb a 0))
  | Fin _, Inf _ => Fin 0
  | Inf _, Inf _ => NaN
  end.

Definition sqrt (x : xreal) : xreal :=
  match x with
  | Fin a => if Rltb a 0 then NaN else Fin (R_sqrt.sqrt a)
  | Inf false => Inf false
  | Inf true => NaN
  | NaN => NaN
  end.

Definition abs (x : xreal) : xreal :=
  match x with
  | Fin a => Fin (Rabs a)
  | Inf _ => Inf false
  | NaN => NaN
  end.

Definition ltb (x y : xreal) : bool :=
  match x, y with
  | NaN, _ | _, NaN => false
  | Fin a, Fin b => Rltb a b
  | Fin _, Inf s => negb s
  | Inf s, Fin _ => s
  | Inf s, Inf s' => s && negb s'
  end.

Definition leb (x y : xreal) : bool :=
  match x, y with
  | NaN, _ | _, NaN => false
  | Fin a, Fin b => Rleb a b
  | Fin _, Inf s => negb s
  | Inf s, Fin _ => s
  | Inf s, Inf s' => s || negb s'
  end.

Definition isnan (x : xreal) : bool :=
  match x with NaN => true | _ => false end.

End X.

#[global] Instance exact : Scalar xreal := {
  fadd := X.add;
  fsub := X.sub;
  fmul := X.mul;
  fdiv := X.div;
  fsqrt := X.sqrt;
  fabs := X.abs;
  fltb := X.ltb;
  fleb := X.leb;
  fisnan := X.isnan;
  fnan := NaN;
  fpos_inf := Inf false;
  fneg_inf := Inf true;
  of_Z := fun z => Fin (IZR z)
}.

(** ** The pandas and numpy operations the script calls *)

(** A column of a table or a series: its values in date order.  The date
    index is the position; a missing value is NaN. *)
Definition series (F : Type) : Type := list F.

(** A table: its columns in order, each under its label. *)
Definition frame (F : Type) : Type := list (string * series F).

(** A series indexed by labels, such as the weight vector. *)
Definition labelled (F : Type) : Type := list (string * F).

(** Two lists combined entry by entry, as long as both last. *)
Fixpoint map2 {A B C : Type} (f : A -> B -> C) (xs : list A) (ys : list B)
  : list C :=
  match xs, ys with
  | x :: xs', y :: ys' => f x y :: map2 f xs' ys'
  | _, _ => []
  end.

(** The value under the first occurrence of a label. *)
Fixpoint lookup {A : Type} (l : string) (xs : list (string * A)) : option A :=
  match xs with
  | [] => None
  | (k, v) :: xs' => if String.eqb l k then Some v else lookup l xs'
  end.

(** Membership, freedom of duplicates, inclusion and equality of label
    lists, as booleans. *)
Fixpoint memb (l : string) (ls : list string) : bool :=
  match ls with
  | [] => false
  | k :: ls' => String.eqb l k || memb l ls'
  end.

Fixpoint nodupb (ls : list string) : bool :=
  match ls with
  | [] => true
  | k :: ls' => negb (memb k ls') && nodupb ls'
  end.

Definition subsetb (a b : list string) : bool :=
  forallb (fun l => memb l b) a.

Fixpoint labels_eqb (a b : list string) : bool :=
  match a, b with
  | [], [] => true
  | x :: a', y :: b' => String.eqb x y && labels_eqb a' b'
  | _, _ => false
  end.

(** Insertion into a sorted list of labels. *)
Fixpoint insert_label (l : string) (ls : list string) : list string :=
  match ls with
  | [] => [l]
  | k :: ls' => if String.leb l k then l :: ls else k :: insert_label l ls'
  end.

(** Labels in increasing (code point) order. *)
Definition sort_labels (ls : list string) : list string :=
  fold_right insert_label [] ls.

Module Pandas.
Section WithScalar.

Context {F : Type} {SF : Scalar F}.

Definition fzero : F := of_Z 0.
Definition fone : F := of_Z 1.

(** The number of entries, as a number. *)
Definition of_count (n : nat) : F := of_Z (Z.of_nat n).

(** *** Missing values *)

Definition notna (x : F) : bool := negb (fisnan x).

(** [count]: the entries that are not missing. *)
Definition count (xs : series F) : nat := List.length (filter notna xs).

(** [np.putmask(values, isna(values), v)] *)
Definition fillna (v : F) (xs : series F) : series F :=
  map (fun x => if fisnan x then v else x) xs.

(** [result[isna(values)] = v] *)
Definition putmask (xs : series F) (v : F) (result : list F) : list F :=
  map2 (fun x y => if fisnan x then v else y) xs result.

(** *** numpy reductions and accumulations *)

(** [np.maximum] and [np.minimum]: the first argument when it is NaN. *)
Definition np_maximum (a b : F) : F :=
  if fisnan a || fleb b a then a else b.
Definition np_minimum (a b : F) : F :=
  if fisnan a || fleb a b then a else b.

Fixpoint accumulate_from (op : F -> F -> F) (acc : F) (xs : list F)
  : list F :=
  match xs with
  | [] => []
  | x :: xs' => let a := op acc x in a :: accumulate_from op a xs'
  end.

(** [op.accumulate(xs)]: the running results, the first entry as it is. *)
Definition accumulate (op : F -> F -> F) (xs : list F) : list F :=
  match xs with
  | [] => []
  | x :: xs' => x :: accumulate_from op x xs'
  end.

(** [xs.sum()], added left to right from zero.  numpy adds long arrays
    pairwise and [DataFrame.dot] goes through BLAS, so in binary64 their
    result can differ from this one in the last place; the order plays no
    part in the exact model, nor in whether the sum is NaN. *)
Definition np_sum (xs : list F) : F := fold_left fadd xs fzero.

(** [xs.min()] of a non-empty array. *)
Definition np_min (xs : list F) : F :=
  match xs with
  | [] => fnan
  | x :: xs' => fold_left np_minimum xs' x
  end.

(** [np.dot] of two vectors. *)
Definition np_dot (xs ys : list F) : F := np_sum (map2 fmul xs ys).

(** *** Series methods, missing values skipped *)

(** [s.cumprod()]: a missing entry counts as 1 and stays missing. *)
Definition cumprod (xs : series F) : series F :=
  putmask xs fnan (accumulate fmul (fillna fone xs)).

(** [s.cummax()]: a missing entry counts as minus infinity and stays
    missing. *)
Definition cummax (xs : series F) : series F :=
  putmask xs fnan (accumulate np_maximum (fillna fneg_inf xs)).

(** [s.shift(1)] *)
Definition shift (xs : series F) : series F :=
  firstn (List.length xs) (fnan :: xs).

(** [s.pct_change()] without filling: [s / s.shift(1) - 1]. *)
Definition pct_change (xs : series F) : series F :=
  map2 (fun p q => fsub (fdiv p q) fone) xs (shift xs).

(** [1 + s] and [s - 1] *)
Definition radd1 (xs : series F) : series F := map (fadd fone) xs.
Definition sub1 (xs : series F) : series F :=
  map (fun x => fsub x fone) xs.

(** [a / b] on two series over the same dates. *)
Definition sdiv (xs ys : series F) : series F := map2 fdiv xs ys.

(** [s.mean()]: the sum of the entries that are not missing over their
    number; missing when there is none. *)
Definition mean (xs : series F) : F :=
  let n := count xs in
  if (n =? 0)%nat then fnan
  else fdiv (np_sum (fillna fzero xs)) (of_count n).

(** [s.var()] with the default [ddof = 1], in two passes: missing when
    at most one entry is not missing. *)
Definition var (xs : series F) : F :=
  let n := count xs in
  if (n <=? 1)%nat then fnan
  else
    let values := fillna fzero xs in
    let avg := fdiv (np_sum values) (of_count n) in
    let sqr := map (fun v => let d := fsub avg v in fmul d d) values in
    let sqr := putmask xs fzero sqr in
    fdiv (np_sum sqr) (of_count (n - 1)).

(** [s.std()] *)
Definition std (xs : series F) : F := fsqrt (var xs).

(** [s.min()]: missing when no entry is left. *)
Definition min (xs : series F) : F :=
  if (count xs =? 0)%nat then fnan
  else np_min (fillna fpos_inf xs).

(** *** Table methods *)

Definition columns (df : frame F) : list string := map fst df.

Definition nrows (df : frame F) : nat :=
  match df with
  | [] => 0
  | (_, c) :: _ => List.length c
  end.

(** A method of series applied to every column. *)
Definition per_column (f : series F -> series F) (df : frame F) : frame F :=
  map (fun c => (fst c, f (snd c))) df.

(** The values of row [t], in column order. *)
Definition row (df : frame F) (t : nat) : list F :=
  map (fun c => nth t (snd c) fnan) df.

(** The values of row [t] under the given labels; missing where the
    table has no such column. *)
Definition row_at (df : frame F) (ls : list string) (t : nat) : list F :=
  map (fun l => match lookup l df with
                | Some c => nth t c fnan
                | None => fnan
                end) ls.

Definition values_at (w : labelled F) (ls : list string) : list F :=
  map (fun l => match lookup l w with
                | Some v => v
                | None => fnan
                end) ls.

(** [df.dot(w)]: the columns of [df] are matched with the labels of [w].
    When the two label lists are equal nothing moves.  Otherwise both
    are reindexed by their sorted union, which needs each side free of
    duplicates and both made of the same labels; [None] is the
    [ValueError] raised when they are not. *)
Definition dot (df : frame F) (w : labelled F) : option (series F) :=
  let cols := columns df in
  let idx := map fst w in
  if labels_eqb cols idx then
    Some (map (fun t => np_dot (row df t) (map snd w)) (seq 0 (nrows df)))
  else if nodupb cols && nodupb idx && subsetb cols idx && subsetb idx cols
  then
    let common := sort_labels cols in
    Some (map (fun t => np_dot (row_at df common t) (values_at w common))
              (seq 0 (nrows df)))
  else None.

End WithScalar.
End Pandas.

(** ** The script *)

Module Tracker.

(** The choices of the period select box. *)
Inductive period : Type := P6mo | P1y | P2y | P5y.

(** The exceptions that can end a run: [float] on a token that is not a
    number, a failure of the download (or of the lookup of its ["Close"]
    table), and [DataFrame.dot] on labels that do not match. *)
Inductive exn : Type :=
| FloatValueError (token : string)
| DownloadFailure
| NotAligned.

(** How a run ends: it reaches the last line, [st.stop()] halts it, or
    an exception escapes. *)
Inductive status : Type :=
| Completed
| Stopped
| Raised (e : exn).

(** What a run does to the outside, in order.  Values are recorded as
    computed, before their formatting as text. *)
Inductive event (F : Type) : Type :=
| PageConfig
| Title (text : string)
| SidebarHeader (text : string)
| TextInput (label : string)
| Selectbox (label : string)
| Error (message : string)
| Download (tickers : list string) (p : period)
| Subheader (text : string)
| Metric (label : string) (value : F)
| Pyplot (title : string) (lines : frame F)
| DownloadButton (label : string) (data : frame F) (file : string).

Arguments PageConfig {F}.
Arguments Title {F} text.
Arguments SidebarHeader {F} text.
Arguments TextInput {F} label.
Arguments Selectbox {F} label.
Arguments Error {F} message.
Arguments Download {F} tickers p.
Arguments Subheader {F} text.

(** *** A run: the events so far and a value, or the way it ended *)

Definition M (F A : Type) : Type := (list (event F) * (A + status))%type.

Definition ret {F A : Type} (a : A) : M F A := ([], inl a).

Definition bind {F A B : Type} (m : M F A) (k : A -> M F B) : M F B :=
  match m with
  | (t, inl a) => let (t', r) := k a in (t ++ t', r)
  | (t, inr s) => (t, inr s)
  end.

Definition emit {F : Type} (e : event F) : M F unit := ([e], inl tt).

(** [st.stop()] *)
Definition stop {F A : Type} : M F A := ([], inr Stopped).

Definition raise {F A : Type} (e : exn) : M F A := ([], inr (Raised e)).

(** A call that returns or raises [e]. *)
Definition try {F A : Type} (e : exn) (o : option A) : M F A :=
  match o with
  | Some a => ret a
  | None => raise e
  end.

Declare Scope run_scope.
Delimit Scope run_scope with run.
Notation "x <- m ;; k" := (bind m (fun x => k))
  (at level 61, m at next level, right associativity) : run_scope.
Notation "m ;; k" := (bind m (fun _ => k))
  (at level 61, right associativity) : run_scope.

(** The events of a finished run and how it ended. *)
Definition outcome (F : Type) : Type := (list (event F) * status)%type.

Definition finish {F : Type} (m : M F unit) : outcome F :=
  (fst m, match snd m with inl _ => Completed | inr s => s end).

Definition trace {F : Type} (o : outcome F) : list (event F) := fst o.
Definition final {F : Type} (o : outcome F) : status := snd o.

(** *** What the claims observe in a trace *)

Definition is_error {F : Type} (e : event F) : bool :=
  match e with Error _ => true | _ => false end.

(** Access to the market-data provider. *)
Definition is_download {F : Type} (e : event F) : bool :=
  match e with Download _ _ => true | _ => false end.

(** Output computed from market data: a metric card, a chart, a table
    offered for download, or the heading of one of these. *)
Definition is_result {F : Type} (e : event F) : bool :=
  match e with
  | Subheader _ | Metric _ _ | Pyplot _ _ | DownloadButton _ _ _ => true
  | _ => false
  end.

(** The run showed an error message and was halted by [st.stop()]. *)
Definition validation_halt {F : Type} (o : outcome F) : Prop :=
  final o = Stopped /\ existsb is_error (trace o) = true.

Section WithScalar.

Context {F : Type} {SF : Scalar F}.

(** Python's [float] on a string: the number, or [None] for the
    [ValueError]. *)
Variable py_float : string -> option F.

(** The market-data provider: the ["Close"] table of the download for
    the tickers and the period, or [None] when the download or the
    lookup raises. *)
Variable provider : list string -> period -> option (frame F).

Local Open Scope string_scope.
Local Open Scope run_scope.

(** [[e.strip().upper() for e in etfs.split(",")]] *)
Definition etf_list (etfs : string) : list string :=
  map (fun e => PyStr.upper (PyStr.strip e))
      (PyStr.split PyStr.comma etfs).

(** [[float(w.strip()) for w in ...]]: the first token that is not a
    number raises. *)
Fixpoint floats (tokens : list string) : string + list F :=
  match tokens with
  | [] => inr []
  | w :: tokens' =>
      match py_float (PyStr.strip w) with
      | None => inl (PyStr.strip w)
      | Some x =>
          match floats tokens' with
          | inl bad => inl bad
          | inr xs => inr (x :: xs)
          end
      end
  end.

Definition weights_list (weights_input : string) : string + list F :=
  floats (PyStr.split PyStr.comma weights_input).

(** Python's [sum]: from the integer 0, left to right. *)
Definition py_sum (xs : list F) : F := fold_left fadd xs (of_Z 0).

(** The literal [0.001]. *)
Definition tolerance : F := fdiv (of_Z 1) (of_Z 1000).

(** [len(weights_list) != len(etf_list)] *)
Definition count_mismatch (weights : list F) (etfs : list string) : bool :=
  negb (List.length weights =? List.length etfs)%nat.

(** [abs(sum(weights_list) - 1) > 0.001] *)
Definition sum_off (weights : list F) : bool :=
  fltb tolerance (fabs (fsub (py_sum weights) (of_Z 1))).

(** [pd.Series(weights_list, index=etf_list)] *)
Definition weights_series (weights : list F) (etfs : list string)
  : labelled F := combine etfs weights.

(** [adj_close.pct_change()] *)
Definition daily_returns (adj_close : frame F) : frame F :=
  Pandas.per_column Pandas.pct_change adj_close.

(** [(1 + daily_returns).cumprod() - 1] *)
Definition cumulative_returns (daily : frame F) : frame F :=
  Pandas.per_column
    (fun c => Pandas.sub1 (Pandas.cumprod (Pandas.radd1 c))) daily.

(** [daily_returns.dot(weights_series)] *)
Definition portfolio_daily_returns (daily : frame F) (w : labelled F)
  : option (series F) := Pandas.dot daily w.

(** [(1 + portfolio_daily_returns).cumprod() - 1] *)
Definition portfolio_cumulative_returns (pdr : series F) : series F :=
  Pandas.sub1 (Pandas.cumprod (Pandas.radd1 pdr)).

(** [portfolio_daily_returns.std() * np.sqrt(252)] *)
Definition portfolio_volatility (pdr : series F) : F :=
  fmul (Pandas.std pdr) (fsqrt (of_Z 252)).

(** [portfolio_daily_returns.mean() * 252] *)
Definition portfolio_annual_return (pdr : series F) : F :=
  fmul (Pandas.mean pdr) (of_Z 252).

(** [portfolio_annual_return / portfolio_volatility] *)
Definition sharpe_ratio (pdr : series F) : F :=
  fdiv (portfolio_annual_return pdr) (portfolio_volatility pdr).

(** [(1 + portfolio_daily_returns).cumprod()], the wealth curve. *)
Definition wealth (pdr : series F) : series F :=
  Pandas.cumprod (Pandas.radd1 pdr).

(** [(1 + portfolio_daily_returns).cumprod().cummax()] *)
Definition rolling_max (pdr : series F) : series F :=
  Pandas.cummax (wealth pdr).

(** [(1 + portfolio_daily_returns).cumprod() / rolling_max - 1] *)
Definition drawdown (pdr : series F) : series F :=
  Pandas.sub1 (Pandas.sdiv (wealth pdr) (rolling_max pdr)).

(** [drawdown.min()] *)
Definition max_drawdown (pdr : series F) : F :=
  Pandas.min (drawdown pdr).

(** The four metric cards, the two charts and the three downloads. *)
Definition render (adj_close daily cumulative : frame F)
    (pdr pcr : series F) : M F unit :=
  emit (Subheader " Portfolio Risk Metrics") ;;
  emit (Metric "Annualized Return" (portfolio_annual_return pdr)) ;;
  emit (Metric "Annualized Volatility" (portfolio_volatility pdr)) ;;
  emit (Metric "Sharpe Ratio" (sharpe_ratio pdr)) ;;
  emit (Metric "Max Drawdown" (max_drawdown pdr)) ;;
  emit (Subheader "Cumulative Returns of ETFs") ;;
  emit (Pyplot "Cumulative Returns" cumulative) ;;
  emit (Subheader "Portfolio Cumulative Return") ;;
  emit (Pyplot "Portfolio Cumulative Return" [("Portfolio", pcr)]) ;;
  emit (Subheader " Download Data") ;;
  emit (DownloadButton "ETF Prices CSV" adj_close "etf_prices.csv") ;;
  emit (DownloadButton "Daily Returns CSV" daily
          "etf_daily_returns.csv") ;;
  emit (DownloadButton "Portfolio Daily Returns CSV" [("0", pdr)]
          "portfolio_daily_returns.csv").

(** The script from the validation of the weights on (lines 34 to 93),
    given the parsed tickers and weights. *)
Definition analysis (etfs : list string) (p : period) (weights : list F)
  : M F unit :=
  if count_mismatch weights etfs then
    emit (Error "⚠ Number of weights must match number of ETFs") ;;
    stop
  else if sum_off weights then
    emit (Error "⚠ Weights must sum to 1. Please adjust.") ;;
    stop
  else
    let w := weights_series weights etfs in
    emit (Download etfs p) ;;
    adj_close <- try DownloadFailure (provider etfs p) ;;
    let daily := daily_returns adj_close in
    let cumulative := cumulative_returns daily in
    pdr <- try NotAligned (portfolio_daily_returns daily w) ;;
    let pcr := portfolio_cumulative_returns pdr in
    render adj_close daily cumulative pdr pcr.

(** The whole script, from the three inputs. *)
Definition script (etfs : string) (p : period) (weights_input : string)
  : M F unit :=
  emit PageConfig ;;
  emit (Title " ETF Tracker Dashboard") ;;
  emit (SidebarHeader "Portfolio Settings") ;;
  emit (TextInput "Enter ETF tickers (comma separated)") ;;
  let tickers := etf_list etfs in
  emit (Selectbox "Select period") ;;
  emit (TextInput "Enter weights (comma separated, must sum to 1)") ;;
  weights <- match weights_list weights_input with
             | inl bad => raise (FloatValueError bad)
             | inr ws => ret ws
             end ;;
  analysis tickers p weights.

Definition run (etfs : string) (p : period) (weights_input : string)
  : outcome F := finish (script etfs p weights_input).

End WithScalar.

End Tracker.

(** ** Notions the properties are stated with *)

(** The number of occurrences of a character in a text. *)
Fixpoint occurrences (sep : ascii) (s : string) : nat :=
  match s with
  | EmptyString => 0
  | String c s' => (if Ascii.eqb c sep then 1 else 0) + occurrences sep s'
  end.

Section Statistics.

Context {F : Type} {SF : Scalar F}.

(** The entries that are not missing. *)
Definition dropna (xs : series F) : list F := filter Pandas.notna xs.

(** The product of the given values, from 1. *)
Definition product (xs : list F) : F := fold_left fmul xs Pandas.fone.

(** The sample standard deviation as the specification words it: the
    squared deviations from the mean, summed, divided by [N - 1], and the
    square root of that. *)
Definition sample_mean (xs : list F) : F :=
  fdiv (Pandas.np_sum xs) (Pandas.of_count (List.length xs)).

Definition sample_std (xs : list F) : F :=
  let m := sample_mean xs in
  fsqrt (fdiv (Pandas.np_sum (map (fun x => let d := fsub x m in fmul d d) xs))
              (Pandas.of_count (List.length xs - 1))).

End Statistics.

(** The real numbers among the entries of a series of the exact model. *)
Fixpoint finite_values (xs : list xreal) : list R :=
  match xs with
  | [] => []
  | Fin r :: xs' => r :: finite_values xs'
  | _ :: xs' => finite_values xs'
  end.

(** The sum of a list of real numbers. *)
Fixpoint Rsum (rs : list R) : R :=
  match rs with
  | [] => 0
  | r :: rs' => r + Rsum rs'
  end.

(** Every value is at least [lo] and at least the value before it. *)
Fixpoint nondecreasing_from (lo : R) (rs : list R) : Prop :=
  match rs with
  | [] => True
  | r :: rs' => (lo <= r)%R /\ nondecreasing_from r rs'
  end.

Definition nondecreasing (rs : list R) : Prop :=
  match rs with
  | [] => True
  | r :: rs' => nondecreasing_from r rs'
  end.

(** The wealth curve, its running maximum and the drawdown in the exact
    model, continued from a running product [acc] and a running maximum
    [top]: what the three accumulations of the script compute past any
    prefix of the series. *)
Definition wealth_from (acc : xreal) (ys : list xreal) : list xreal :=
  Pandas.putmask ys NaN
    (Pandas.accumulate_from X.mul acc (Pandas.fillna (Fin 1) ys)).

Definition rolling_max_from (top : xreal) (ws : list xreal) : list xreal :=
  Pandas.putmask ws NaN
    (Pandas.accumulate_from Pandas.np_maximum top
       (Pandas.fillna (Inf true) ws)).

Definition drawdown_from (acc top : xreal) (ys : list xreal) : list xreal :=
  Pandas.sub1
    (Pandas.sdiv (wealth_from acc ys)
                 (rolling_max_from top (wealth_from acc ys))).


Definition real_above_minus_one (x : xreal) : Prop :=
  x = NaN \/ exists r, x = Fin r /\ (-1 < r)%R.

Definition drawdown_ok (d : xreal) : Prop :=
  d = NaN \/ exists r, d = Fin r /\ (r <= 0)%R.

Definition is_finite (x : xreal) : bool :=
  match x with Fin _ => true | _ => false end.

(** The rational number a finite double stands for. *)
Definition Q_of_float (x : float) : option Q :=
  match Prim2SF x with
  | S754_zero _ => Some 0%Q
  | S754_finite s m e =>
      Some (Qmult (inject_Z (if s then Zneg m else Zpos m)) (Qpower 2 e))
  | _ => None
  end.

(** [x] is a finite double within [tol] of the rational [c]. *)
Definition within (tol c : Q) (x : float) : bool :=
  match Q_of_float x with
  | Some q => Qle_bool (Qabs (q - c)) tol
  | None => false
  end.

(** The doubles [xs] are, one by one, within [tol] of the rationals [cs]. *)
Fixpoint all_within (tol : Q) (cs : list Q) (xs : list float) : bool :=
  match cs, xs with
  | [], [] => true
  | c :: cs', x :: xs' => within tol c x && all_within tol cs' xs'
  | _, _ => false
  end.

(** *** A parser for plain decimal numerals

    Python's [float] is a parameter of the script's model.  This parser
    stands in for it in the worked examples only, on short numerals: an
    optional sign followed by digits with at most one point, read as the
    quotient of the digits as an integer by the power of ten, rounded
    once.  It is narrower than [float]: it rejects the texts nan and inf
    and exponent notation, which [float] accepts, and from about 19
    digits on, where the integer is no longer a double, its value can
    differ from the correctly rounded one. *)

Definition digit_of (c : ascii) : option Z :=
  let n := nat_of_ascii c in
  if ((48 <=? n) && (n <=? 57))%nat then Some (Z.of_nat (n - 48)) else None.

Fixpoint decimal_digits (s : string) (point any : bool) (m : Z) (k : nat)
  : option (Z * nat) :=
  match s with
  | EmptyString => if any then Some (m, k) else None
  | String c s' =>
      if Ascii.eqb c "."%char then
        if point then None else decimal_digits s' true any m k
      else
        match digit_of c with
        | Some d =>
            decimal_digits s' point true (10 * m + d)%Z
                           (if point then S k else k)
        | None => None
        end
  end.

Definition decimal_float (s : string) : option float :=
  let '(negative, body) :=
    match s with
    | String "-"%char s' => (true, s')
    | String "+"%char s' => (false, s')
    | _ => (false, s)
    end in
  match decimal_digits body false false 0%Z 0%nat with
  | Some (m, k) =>
      let x := PrimFloat.div (float_of_Z m) (float_of_Z (10 ^ Z.of_nat k)) in
      Some (if negative then PrimFloat.opp x else x)
  | None => None
  end.

(** *** Notions for the further properties *)

(** The events every run starts with: the page set-up and the three
    input widgets (lines 18 to 30). *)
Definition header {F : Type} : list (Tracker.event F) :=
  [Tracker.PageConfig;
   Tracker.Title " ETF Tracker Dashboard";
   Tracker.SidebarHeader "Portfolio Settings";
   Tracker.TextInput "Enter ETF tickers (comma separated)";
   Tracker.Selectbox "Select period";
   Tracker.TextInput "Enter weights (comma separated, must sum to 1)"].

(** The number of calls of the provider in a trace. *)
Definition downloads {F : Type} (t : list (Tracker.event F)) : nat :=
  List.length (filter Tracker.is_download t).

(** [sep.join(fields)] for a one-character separator. *)
Fixpoint join (sep : ascii) (fields : list string) : string :=
  match fields with
  | [] => EmptyString
  | [f] => f
  | f :: fs => String.append f (String sep (join sep fs))
  end.

(** The character occurs in the text. *)
Fixpoint occurs (c : ascii) (s : string) : bool :=
  match s with
  | EmptyString => false
  | String a s' => Ascii.eqb a c || occurs c s'
  end.

(** The shape of a table: its labels and the length of each column. *)
Definition shape {F : Type} (df : frame F) : list (string * nat) :=
  map (fun c => (fst c, List.length (snd c))) df.

(** The weighted sum of the returns [ret] of the tickers, each with the
    weight at its position. *)
Fixpoint weighted_sum (ret : string -> R) (etfs : list string) (ws : list R)
  : R :=
  match etfs, ws with
  | l :: etfs', w :: ws' => ret l * w + weighted_sum ret etfs' ws'
  | _, _ => 0
  end.

(** Equal real numbers under [Fin], and lists of them. *)
Ltac exact_values :=
  repeat match goal with
         | |- Some _ = Some _ => apply f_equal
         | |- _ :: _ = _ :: _ => apply f_equal2
         | |- Fin _ = Fin _ => apply f_equal; lra
         | |- @nil _ = @nil _ => reflexivity
         end.

(** * Properties *)

Unset Implicit Arguments.

(** ** The input collector and the validation of the weights *)

Lemma count_mismatch_spec (F : Type) (weights : list F) (etfs : list string) :
  Tracker.count_mismatch weights etfs = true
  <-> List.length weights <> List.length etfs.
Proof.
  unfold Tracker.count_mismatch. rewrite negb_true_iff, Nat.eqb_neq.
  reflexivity.
Qed.

Section RunFacts.

Context {F : Type} {SF : Scalar F}.
Variable py_float : string -> option F.
Variable provider : list string -> Tracker.period -> option (frame F).

(** Past the two checks a run never ends in [st.stop()]. *)
Lemma analysis_checked_not_stopped etfs p weights :
  Tracker.count_mismatch weights etfs = false ->
  Tracker.sum_off weights = false ->
  Tracker.final (Tracker.finish (Tracker.analysis provider etfs p weights))
  <> Tracker.Stopped.
Proof.
  intros Hc Hs. unfold Tracker.analysis. rewrite Hc, Hs.
  destruct (provider etfs p) as [adj_close|]; cbn; [|discriminate].
  destruct (Tracker.portfolio_daily_returns _ _) as [pdr|]; cbn; discriminate.
Qed.

(** A failed check shows its message, stops, and does nothing else. *)
Lemma analysis_rejected etfs p weights :
  Tracker.count_mismatch weights etfs = true \/ Tracker.sum_off weights = true ->
  exists message,
    Tracker.finish (Tracker.analysis provider etfs p weights)
    = ([Tracker.Error message], Tracker.Stopped).
Proof.
  intros H. unfold Tracker.analysis.
  destruct (Tracker.count_mismatch weights etfs) eqn:Hc; [eexists; reflexivity|].
  destruct H as [H|H]; [discriminate|]. rewrite H. eexists; reflexivity.
Qed.

(** The weights are read token by token: they all parse, or the first
    that does not is reported. *)
Lemma floats_all_or_first tokens :
  match Tracker.floats py_float tokens with
  | inl bad =>
      py_float bad = None /\ exists w, In w tokens /\ bad = PyStr.strip w
  | inr ws =>
      List.length ws = List.length tokens
      /\ forall w, In w tokens -> py_float (PyStr.strip w) <> None
  end.
Proof.
  induction tokens as [|w tokens IH]; simpl.
  - split; [reflexivity | intros w []].
  - destruct (py_float (PyStr.strip w)) as [x|] eqn:E.
    + destruct (Tracker.floats py_float tokens) as [bad|ws].
      * destruct IH as [Hb [w' [Hin ->]]]. split; [exact Hb|].
        exists w'. split; [right; exact Hin | reflexivity].
      * destruct IH as [Hl Hall]. split; [simpl; congruence|].
        intros w' [<-|Hin]; [congruence | apply Hall, Hin].
    + split; [exact E|]. exists w. split; [left; reflexivity | reflexivity].
Qed.

End RunFacts.

(** C1.  Weight validation.  For tickers of any length and weights of any
    length, the run from the validation on halts on an error message if
    and only if the two lengths differ or [0.001 < |sum(weights) - 1|];
    and when it halts so, the message is all it did: the provider was
    never called, nothing computed from market data was shown, and the
    outcome is the same whatever the provider would have answered. *)
Theorem weight_validation :
  forall (F : Type) (SF : Scalar F)
         (provider : list string -> Tracker.period -> option (frame F))
         (etfs : list string) (p : Tracker.period) (weights : list F),
    let o := Tracker.finish (Tracker.analysis provider etfs p weights) in
    (Tracker.validation_halt o
     <-> (List.length weights <> List.length etfs
          \/ fltb Tracker.tolerance
                  (fabs (fsub (Tracker.py_sum weights) (of_Z 1))) = true))
    /\ (Tracker.validation_halt o ->
        (exists message, o = ([Tracker.Error message], Tracker.Stopped))
        /\ existsb Tracker.is_download (Tracker.trace o) = false
        /\ existsb Tracker.is_result (Tracker.trace o) = false
        /\ forall provider',
             Tracker.finish (Tracker.analysis provider' etfs p weights) = o).
Proof.
  intros F SF provider etfs p weights o.
  fold (Tracker.sum_off weights). rewrite <- count_mismatch_spec.
  assert (Hdec : Tracker.validation_halt o
                 -> Tracker.count_mismatch weights etfs = true
                    \/ Tracker.sum_off weights = true).
  { intros [Hstop _].
    destruct (Tracker.count_mismatch weights etfs) eqn:Hc; [now left|].
    destruct (Tracker.sum_off weights) eqn:Hs; [now right|].
    exfalso. revert Hstop. now apply analysis_checked_not_stopped. }
  split; [split; [exact Hdec|] |].
  - intros H. destruct (@analysis_rejected _ _ provider etfs p weights H) as [m Hm].
    subst o. rewrite Hm. split; reflexivity.
  - intros Hhalt. pose proof (Hdec Hhalt) as H.
    destruct (@analysis_rejected _ _ provider etfs p weights H) as [m Hm].
    subst o. rewrite Hm. split; [now exists m|]. repeat split.
    intros provider'. unfold Tracker.analysis.
    unfold Tracker.analysis in Hm. revert Hm.
    destruct (Tracker.count_mismatch weights etfs); [intros Hm; exact Hm|].
    destruct (Tracker.sum_off weights); [intros Hm; exact Hm|].
    destruct H; discriminate.
Qed.

(** Weights 0.5 and 0.6 for two tickers: the sum is off, the run halts on
    the message and the provider is never asked. *)
Lemma weight_validation_witness :
  let provider := fun (_ : list string) (_ : Tracker.period) =>
    Some [("A"%string, [100; 110]%float); ("B"%string, [50; 55]%float)] in
  let o := Tracker.finish
             (Tracker.analysis provider ["A"%string; "B"%string] Tracker.P1y
                [0x1p-1; 0x1.3333333333333p-1]%float) in
  Tracker.validation_halt o
  /\ (exists message, o = ([Tracker.Error message], Tracker.Stopped))
  /\ existsb Tracker.is_download (Tracker.trace o) = false
  /\ existsb Tracker.is_result (Tracker.trace o) = false
  /\ forall provider',
       Tracker.finish
         (Tracker.analysis provider' ["A"%string; "B"%string] Tracker.P1y
            [0x1p-1; 0x1.3333333333333p-1]%float) = o.
Proof.
  intros provider o.
  destruct (weight_validation float binary64 provider
              ["A"%string; "B"%string] Tracker.P1y
              [0x1p-1; 0x1.3333333333333p-1]%float) as [Hiff Hhalt].
  assert (H : Tracker.validation_halt o).
  { apply Hiff. right. vm_compute. reflexivity. }
  split; [exact H | exact (Hhalt H)].
Defined.

(** In binary64 the tolerance is the double the literal [0.001] denotes. *)
Example tolerance_literal :
  @Tracker.tolerance float binary64 = 0x1.0624dd2f1a9fcp-10%float.
Proof. vm_compute. reflexivity. Qed.

(** The whole script on the inputs "A, B" and "0.5, 0.6". *)
Example weights_off_run :
  Tracker.run decimal_float (fun _ _ => None) "A, B" Tracker.P1y "0.5, 0.6"
  = ([Tracker.PageConfig; Tracker.Title " ETF Tracker Dashboard";
      Tracker.SidebarHeader "Portfolio Settings";
      Tracker.TextInput "Enter ETF tickers (comma separated)";
      Tracker.Selectbox "Select period";
      Tracker.TextInput "Enter weights (comma separated, must sum to 1)";
      Tracker.Error "⚠ Weights must sum to 1. Please adjust."],
     Tracker.Stopped).
Proof. vm_compute. reflexivity. Qed.

(** *** Text *)

Lemma split_length sep s :
  List.length (PyStr.split sep s) = S (occurrences sep s).
Proof.
  induction s as [|c s IH]; simpl; [reflexivity|].
  destruct (Ascii.eqb c sep); simpl; [now rewrite IH|].
  destruct (PyStr.split sep s); simpl in *; [discriminate | exact IH].
Qed.

Lemma upper_char_idempotent c :
  PyStr.upper_char (PyStr.upper_char c) = PyStr.upper_char c.
Proof.
  destruct c as [[] [] [] [] [] [] [] []]; reflexivity.
Qed.

Lemma is_space_upper_char c :
  PyStr.is_space (PyStr.upper_char c) = PyStr.is_space c.
Proof.
  destruct c as [[] [] [] [] [] [] [] []]; reflexivity.
Qed.

Lemma upper_idempotent s : PyStr.upper (PyStr.upper s) = PyStr.upper s.
Proof.
  induction s as [|c s IH]; simpl; [reflexivity|].
  now rewrite upper_char_idempotent, IH.
Qed.

Lemma lstrip_upper s : PyStr.lstrip (PyStr.upper s) = PyStr.upper (PyStr.lstrip s).
Proof.
  induction s as [|c s IH]; simpl; [reflexivity|].
  rewrite is_space_upper_char. destruct (PyStr.is_space c); [exact IH | reflexivity].
Qed.

Lemma rstrip_upper s : PyStr.rstrip (PyStr.upper s) = PyStr.upper (PyStr.rstrip s).
Proof.
  induction s as [|c s IH]; simpl; [reflexivity|].
  rewrite IH, is_space_upper_char.
  destruct (PyStr.rstrip s); simpl; [|reflexivity].
  destruct (PyStr.is_space c); reflexivity.
Qed.

Lemma strip_upper s : PyStr.strip (PyStr.upper s) = PyStr.upper (PyStr.strip s).
Proof. unfold PyStr.strip. now rewrite lstrip_upper, rstrip_upper. Qed.

(** A text that is empty or starts with something else than a blank. *)
Lemma lstrip_fixed t :
  match t with
  | EmptyString => True
  | String c _ => PyStr.is_space c = false
  end -> PyStr.lstrip t = t.
Proof. destruct t as [|c t]; simpl; [reflexivity|]. now intros ->. Qed.

Lemma lstrip_starts s :
  match PyStr.lstrip s with
  | EmptyString => True
  | String c _ => PyStr.is_space c = false
  end.
Proof.
  induction s as [|c s IH]; simpl; [exact I|].
  destruct (PyStr.is_space c) eqn:E; [exact IH | exact E].
Qed.

Lemma rstrip_starts t :
  match t with
  | EmptyString => True
  | String c _ => PyStr.is_space c = false
  end ->
  match PyStr.rstrip t with
  | EmptyString => True
  | String c _ => PyStr.is_space c = false
  end.
Proof.
  destruct t as [|c t]; simpl; [trivial|]. intros E.
  destruct (PyStr.rstrip t); [rewrite E|]; exact E.
Qed.

Lemma rstrip_idempotent t : PyStr.rstrip (PyStr.rstrip t) = PyStr.rstrip t.
Proof.
  induction t as [|c t IH]; simpl; [reflexivity|].
  destruct (PyStr.rstrip t) as [|d r] eqn:E.
  - destruct (PyStr.is_space c) eqn:Ec; simpl; [reflexivity | now rewrite Ec].
  - change (PyStr.rstrip (String c (String d r)))
      with (match PyStr.rstrip (String d r) with
            | EmptyString =>
                if PyStr.is_space c then EmptyString else String c EmptyString
            | String a b => String c (String a b)
            end).
    now rewrite IH.
Qed.

Lemma strip_idempotent s : PyStr.strip (PyStr.strip s) = PyStr.strip s.
Proof.
  unfold PyStr.strip.
  rewrite (lstrip_fixed (PyStr.rstrip (PyStr.lstrip s))).
  - apply rstrip_idempotent.
  - apply rstrip_starts, lstrip_starts.
Qed.

(** C9, as the code has it.  The tickers are a list with one entry per
    comma separated field of the input, so never empty; every entry is
    trimmed and upper-cased.  (Nothing removes a repeated or an empty
    entry.) *)
Theorem etf_list_fields :
  forall etfs : string,
    Tracker.etf_list etfs <> []
    /\ List.length (Tracker.etf_list etfs) = S (occurrences PyStr.comma etfs)
    /\ Forall (fun e => PyStr.strip e = e /\ PyStr.upper e = e)
              (Tracker.etf_list etfs).
Proof.
  intros etfs. unfold Tracker.etf_list.
  assert (L : List.length
                (map (fun e => PyStr.upper (PyStr.strip e))
                     (PyStr.split PyStr.comma etfs))
              = S (occurrences PyStr.comma etfs))
    by now rewrite length_map, split_length.
  split; [|split; [exact L|]].
  - intros E. rewrite E in L. discriminate.
  - apply Forall_forall. intros e He. apply in_map_iff in He.
    destruct He as [tok [<- _]]. split.
    + now rewrite strip_upper, strip_idempotent.
    + apply upper_idempotent.
Qed.

(** Fields are kept in order, an empty one as the empty symbol. *)
Example etf_list_example :
  Tracker.etf_list "XLK, spy,, VTI " = ["XLK"; "SPY"; ""; "VTI"]%string
  /\ Tracker.etf_list "" = [""%string].
Proof. split; vm_compute; reflexivity. Qed.

(** C9, as stated, fails: a ticker typed twice is kept twice. *)
Lemma etf_list_keeps_duplicates :
  ~ NoDup (Tracker.etf_list "SPY, spy").
Proof.
  vm_compute. intros H. inversion H as [|x l Hnotin _]. apply Hnotin.
  left. reflexivity.
Qed.

(** C10.  When a token of the weight input is not a number, [float]
    raises: the run ends on that exception, having shown no error message,
    called no provider and shown no result; the tickers and the provider
    play no part in the outcome. *)
Theorem unparsable_weight_aborts :
  forall (F : Type) (SF : Scalar F) (py_float : string -> option F)
         (provider : list string -> Tracker.period -> option (frame F))
         (etfs : string) (p : Tracker.period) (weights_input : string),
    (exists w, In w (PyStr.split PyStr.comma weights_input)
               /\ py_float (PyStr.strip w) = None) ->
    let o := Tracker.run py_float provider etfs p weights_input in
    (exists bad, Tracker.final o = Tracker.Raised (Tracker.FloatValueError bad)
                 /\ py_float bad = None)
    /\ existsb Tracker.is_error (Tracker.trace o) = false
    /\ existsb Tracker.is_download (Tracker.trace o) = false
    /\ existsb Tracker.is_result (Tracker.trace o) = false
    /\ forall etfs' provider',
         Tracker.run py_float provider' etfs' p weights_input = o.
Proof.
  intros F SF py_float provider etfs p weights_input [w [Hin Hw]] o.
  subst o. unfold Tracker.run, Tracker.script, Tracker.weights_list.
  pose proof (floats_all_or_first py_float
                (PyStr.split PyStr.comma weights_input)) as H.
  destruct (Tracker.floats py_float (PyStr.split PyStr.comma weights_input))
    as [bad|ws].
  - destruct H as [Hbad _]. cbn. repeat split; try reflexivity.
    exists bad. split; [reflexivity | exact Hbad].
  - destruct H as [_ Hall]. exfalso. exact (Hall w Hin Hw).
Qed.

Lemma unparsable_weight_aborts_witness :
  let o := Tracker.run decimal_float (fun _ _ => None) "XLK, SPY"
                       Tracker.P1y "0.5, abc" in
  (exists bad, Tracker.final o = Tracker.Raised (Tracker.FloatValueError bad)
               /\ decimal_float bad = None)
  /\ existsb Tracker.is_error (Tracker.trace o) = false
  /\ existsb Tracker.is_download (Tracker.trace o) = false
  /\ existsb Tracker.is_result (Tracker.trace o) = false
  /\ forall etfs' provider',
       Tracker.run decimal_float provider' etfs' Tracker.P1y "0.5, abc" = o.
Proof.
  apply (@unparsable_weight_aborts float binary64 decimal_float
           (fun _ _ => None) "XLK, SPY" Tracker.P1y "0.5, abc").
  exists " abc"%string. split; [right; left; reflexivity | reflexivity].
Defined.

(** ** Labels and lists *)

Lemma memb_In l ls : memb l ls = true <-> In l ls.
Proof.
  induction ls as [|k ls IH]; simpl; [split; [discriminate | tauto]|].
  rewrite orb_true_iff, IH, String.eqb_eq. split; intros [H|H]; auto.
Qed.

Lemma nodupb_NoDup ls : nodupb ls = true <-> NoDup ls.
Proof.
  induction ls as [|k ls IH]; simpl; [split; [constructor | reflexivity]|].
  rewrite andb_true_iff, negb_true_iff, IH. split.
  - intros [Hk Hls]. constructor; [|exact Hls].
    rewrite <- memb_In, Hk. discriminate.
  - intros H. inversion H as [|x l Hk Hls]; subst. split; [|exact Hls].
    destruct (memb k ls) eqn:E; [|reflexivity]. now apply memb_In in E.
Qed.

Lemma subsetb_incl a b : subsetb a b = true <-> incl a b.
Proof.
  unfold subsetb, incl. rewrite forallb_forall.
  split; intros H l Hl; apply memb_In, H, Hl.
Qed.

Lemma labels_eqb_eq a b : labels_eqb a b = true <-> a = b.
Proof.
  revert b. induction a as [|x a IH]; intros [|y b]; simpl;
    try (split; [discriminate | congruence]); [tauto|].
  rewrite andb_true_iff, String.eqb_eq, IH. split.
  - intros [-> ->]. reflexivity.
  - intros E. inversion E. auto.
Qed.

Lemma insert_label_perm l ls : Permutation (insert_label l ls) (l :: ls).
Proof.
  induction ls as [|k ls IH]; simpl; [reflexivity|].
  destruct (String.leb l k); [reflexivity|].
  rewrite IH. apply perm_swap.
Qed.

Lemma sort_labels_perm ls : Permutation (sort_labels ls) ls.
Proof.
  induction ls as [|k ls IH]; simpl; [reflexivity|].
  rewrite insert_label_perm. now constructor.
Qed.

Lemma lookup_In {A : Type} l (v : A) (xs : list (string * A)) :
  lookup l xs = Some v -> In (l, v) xs.
Proof.
  induction xs as [|[k u] xs IH]; simpl; [discriminate|].
  destruct (String.eqb l k) eqn:E.
  - apply String.eqb_eq in E. intros [= ->]. left. now subst.
  - intros H. right. now apply IH.
Qed.

Lemma lookup_NoDup {A : Type} l (v : A) (xs : list (string * A)) :
  NoDup (map fst xs) -> In (l, v) xs -> lookup l xs = Some v.
Proof.
  induction xs as [|[k u] xs IH]; simpl; [intros _ []|].
  intros Hnd [H|H]; inversion Hnd as [|x ks Hk Hks]; subst.
  - inversion H; subst. now rewrite String.eqb_refl.
  - destruct (String.eqb l k) eqn:E; [|now apply IH].
    apply String.eqb_eq in E. subst k. exfalso. apply Hk.
    change l with (fst (l, v)). now apply in_map.
Qed.

Lemma nth_error_map_seq {A : Type} (f : nat -> A) n t :
  (t < n)%nat -> nth_error (map f (seq 0 n)) t = Some (f t).
Proof.
  intros H. rewrite nth_error_map, nth_error_seq.
  destruct (Nat.ltb_spec t n) as [_|H']; [reflexivity | lia].
Qed.

Lemma map2_map {A B C : Type} (f : B -> B -> C) (g h : A -> B) xs :
  map2 f (map g xs) (map h xs) = map (fun x => f (g x) (h x)) xs.
Proof. induction xs as [|x xs IH]; simpl; [reflexivity | now rewrite IH]. Qed.

Lemma map2_length {A B C : Type} (f : A -> B -> C) xs ys :
  List.length xs = List.length ys ->
  List.length (map2 f xs ys) = List.length xs.
Proof.
  revert ys. induction xs as [|x xs IH]; intros [|y ys]; simpl;
    try discriminate; [reflexivity|].
  intros [= H]. now rewrite IH.
Qed.

Lemma map2_In_l {A B C : Type} (f : A -> B -> C) xs ys x :
  List.length xs = List.length ys -> In x xs ->
  exists y, In (f x y) (map2 f xs ys).
Proof.
  revert ys. induction xs as [|a xs IH]; intros [|b ys]; simpl;
    try discriminate; [intros _ []|].
  intros [= H] [->|Hin].
  - exists b. now left.
  - destruct (IH ys H Hin) as [y Hy]. exists y. now right.
Qed.

(** ** Missing values in the weighted sum *)

Section NanPropagation.

Context {F : Type} {SF : Scalar F}.

(** What the proof needs of the arithmetic: NaN absorbs a product from
    the left and a sum from either side. *)
Hypothesis nan_mul_l : forall x y : F, fisnan x = true -> fisnan (fmul x y) = true.
Hypothesis nan_add_l : forall x y : F, fisnan x = true -> fisnan (fadd x y) = true.
Hypothesis nan_add_r : forall x y : F, fisnan y = true -> fisnan (fadd x y) = true.

Lemma fold_add_nan_acc (xs : list F) (acc : F) :
  fisnan acc = true -> fisnan (fold_left fadd xs acc) = true.
Proof.
  revert acc. induction xs as [|x xs IH]; intros acc H; simpl; [exact H|].
  apply IH, nan_add_l, H.
Qed.

Lemma fold_add_nan_in (xs : list F) (acc x : F) :
  In x xs -> fisnan x = true -> fisnan (fold_left fadd xs acc) = true.
Proof.
  revert acc. induction xs as [|y xs IH]; intros acc [] Hx; simpl.
  - subst y. apply fold_add_nan_acc, nan_add_r, Hx.
  - now apply IH.
Qed.

Lemma np_dot_nan (xs ys : list F) (x : F) :
  List.length xs = List.length ys -> In x xs -> fisnan x = true ->
  fisnan (Pandas.np_dot xs ys) = true.
Proof.
  intros Hlen Hin Hx. unfold Pandas.np_dot, Pandas.np_sum.
  destruct (@map2_In_l _ _ _ fmul xs ys x Hlen Hin) as [y Hy].
  apply (@fold_add_nan_in _ _ (fmul x y) Hy). now apply nan_mul_l.
Qed.

(** A date with a missing daily return has a missing portfolio return. *)
Lemma dot_nan (daily : frame F) (w : labelled F) (pdr : series F) (t : nat) :
  Pandas.dot daily w = Some pdr ->
  (t < Pandas.nrows daily)%nat ->
  (exists c, In c daily /\ fisnan (nth t (snd c) fnan) = true) ->
  exists v, nth_error pdr t = Some v /\ fisnan v = true.
Proof.
  unfold Pandas.dot. intros Hdot Ht [c [Hc Hnan]].
  destruct (labels_eqb (Pandas.columns daily) (map fst w)) eqn:E.
  - injection Hdot as <-. rewrite nth_error_map_seq by exact Ht.
    eexists. split; [reflexivity|].
    apply labels_eqb_eq in E.
    apply np_dot_nan with (x := nth t (snd c) fnan); [| |exact Hnan].
    + unfold Pandas.row. rewrite !length_map.
      apply (f_equal (@List.length string)) in E.
      unfold Pandas.columns in E. rewrite !length_map in E. exact E.
    + unfold Pandas.row. now apply (in_map (fun c => nth t (snd c) fnan)).
  - destruct (nodupb (Pandas.columns daily) && nodupb (map fst w)
              && subsetb (Pandas.columns daily) (map fst w)
              && subsetb (map fst w) (Pandas.columns daily)) eqn:A;
      [|discriminate].
    injection Hdot as <-. rewrite nth_error_map_seq by exact Ht.
    eexists. split; [reflexivity|].
    rewrite !andb_true_iff in A. destruct A as [[[Hnd _] _] _].
    apply nodupb_NoDup in Hnd.
    unfold Pandas.np_dot, Pandas.np_sum, Pandas.row_at, Pandas.values_at.
    rewrite map2_map.
    destruct c as [l col]. simpl in Hnan.
    assert (Hl : In l (sort_labels (Pandas.columns daily))).
    { apply (Permutation_in _ (Permutation_sym (sort_labels_perm _))).
      unfold Pandas.columns. change l with (fst (l, col)). now apply in_map. }
    apply (in_map (fun l0 =>
             fmul match lookup l0 daily with
                  | Some c0 => nth t c0 fnan
                  | None => fnan
                  end
                  match lookup l0 w with
                  | Some v => v
                  | None => fnan
                  end)) in Hl.
    apply (@fold_add_nan_in _ _ _ Hl).
    rewrite (@lookup_NoDup _ l col daily Hnd Hc). now apply nan_mul_l.
Qed.

End NanPropagation.

(** ** Facts of binary64 arithmetic, from the specification of the
    primitive operations *)

Lemma SFcompare_refl x : x <> S754_nan -> SFcompare x x = Some Eq.
Proof.
  destruct x as [s|s| |s m e]; simpl; intros H; try congruence.
  - destruct s; reflexivity.
  - destruct s; rewrite Z.compare_refl; fold (Pos.compare m m);
      rewrite Pos.compare_refl; reflexivity.
Qed.

Lemma is_nan_spec x : PrimFloat.is_nan x = true <-> Prim2SF x = S754_nan.
Proof.
  unfold PrimFloat.is_nan. rewrite FloatAxioms.eqb_spec. unfold SFeqb. split.
  - intros H. destruct (Prim2SF x) eqn:E; try reflexivity;
      rewrite SFcompare_refl in H by discriminate; discriminate.
  - intros ->. reflexivity.
Qed.

Lemma is_nan_mul_l x y :
  PrimFloat.is_nan x = true -> PrimFloat.is_nan (x * y)%float = true.
Proof. rewrite !is_nan_spec, FloatAxioms.mul_spec. intros ->. reflexivity. Qed.

Lemma is_nan_add_l x y :
  PrimFloat.is_nan x = true -> PrimFloat.is_nan (x + y)%float = true.
Proof. rewrite !is_nan_spec, FloatAxioms.add_spec. intros ->. reflexivity. Qed.

Lemma is_nan_add_r x y :
  PrimFloat.is_nan y = true -> PrimFloat.is_nan (x + y)%float = true.
Proof.
  rewrite !is_nan_spec, FloatAxioms.add_spec. intros ->.
  destruct (Prim2SF x); reflexivity.
Qed.

Lemma is_zero_spec y :
  PrimFloat.is_zero y = true -> exists s, Prim2SF y = S754_zero s.
Proof.
  unfold PrimFloat.is_zero. rewrite FloatAxioms.eqb_spec.
  change (Prim2SF PrimFloat.zero) with (S754_zero false).
  destruct (Prim2SF y) as [s|s| |s m e]; simpl; try discriminate.
  - eauto.
  - destruct s; discriminate.
  - destruct s; discriminate.
Qed.

(** A quotient by zero, of either sign, is an infinity or NaN. *)
Lemma div_zero_not_finite x y :
  PrimFloat.is_zero y = true -> PrimFloat.is_finite (x / y)%float = false.
Proof.
  intros H. destruct (is_zero_spec _ H) as [s Hs].
  unfold PrimFloat.is_finite.
  assert (D : Prim2SF (x / y)%float = S754_nan
              \/ exists s', Prim2SF (x / y)%float = S754_infinity s').
  { rewrite FloatAxioms.div_spec, Hs. destruct (Prim2SF x); simpl; eauto. }
  destruct D as [D | [s' D]].
  - apply is_nan_spec in D. rewrite D. reflexivity.
  - assert (I : PrimFloat.is_infinity (x / y)%float = true).
    { unfold PrimFloat.is_infinity.
      rewrite FloatAxioms.eqb_spec, FloatAxioms.abs_spec, D. reflexivity. }
    rewrite I, orb_true_r. reflexivity.
Qed.

(** C5.  In binary64: on a date where the daily return of some ticker is
    missing, the portfolio daily return is missing, whatever the weights
    and the returns of the other tickers. *)
Theorem missing_return_propagates :
  forall (daily : frame float) (w : labelled float) (pdr : series float)
         (t : nat),
    Tracker.portfolio_daily_returns daily w = Some pdr ->
    (t < Pandas.nrows daily)%nat ->
    (exists c, In c daily
               /\ PrimFloat.is_nan (nth t (snd c) PrimFloat.nan) = true) ->
    exists v, nth_error pdr t = Some v /\ PrimFloat.is_nan v = true.
Proof.
  intros daily w pdr t. unfold Tracker.portfolio_daily_returns.
  apply (@dot_nan float binary64 is_nan_mul_l is_nan_add_l is_nan_add_r).
Qed.

Lemma missing_return_propagates_witness :
  exists v,
    nth_error [PrimFloat.nan; 0x1p-6%float] 0 = Some v
    /\ PrimFloat.is_nan v = true.
Proof.
  apply (@missing_return_propagates
           [("A"%string, [PrimFloat.nan; 0x1p-6%float]);
            ("B"%string, [0x1p-5%float; 0x1p-6%float])]
           [("A"%string, 0x1p-1%float); ("B"%string, 0x1p-1%float)]).
  - vm_compute. reflexivity.
  - vm_compute. lia.
  - exists ("A"%string, [PrimFloat.nan; 0x1p-6%float]).
    split; [left; reflexivity | reflexivity].
Defined.

(** ** The Sharpe ratio *)

(** A run that passes the checks, gets its prices and matches its labels
    completes and shows the Sharpe ratio as computed. *)
Lemma analysis_renders (F : Type) (SF : Scalar F)
    (provider : list string -> Tracker.period -> option (frame F))
    (etfs : list string) (p : Tracker.period) (weights : list F)
    (adj_close : frame F) (pdr : series F) :
  Tracker.count_mismatch weights etfs = false ->
  Tracker.sum_off weights = false ->
  provider etfs p = Some adj_close ->
  Tracker.portfolio_daily_returns (Tracker.daily_returns adj_close)
    (Tracker.weights_series weights etfs) = Some pdr ->
  let o := Tracker.finish (Tracker.analysis provider etfs p weights) in
  Tracker.final o = Tracker.Completed
  /\ In (Tracker.Metric "Sharpe Ratio" (Tracker.sharpe_ratio pdr))
        (Tracker.trace o).
Proof.
  intros Hc Hs Hp Hd. unfold Tracker.analysis. rewrite Hc, Hs, Hp. cbn.
  rewrite Hd. cbn. split; [reflexivity|]. auto 10.
Qed.

(** C6.  In binary64: the Sharpe ratio is the plain quotient of the
    annualized return by the annualized volatility; when the volatility
    is zero the quotient is an infinity or NaN; a run shows that value on
    its metric card and completes; and for the returns [0, 0, 0] the
    volatility is 0, the Sharpe ratio is not finite and the maximum
    drawdown is 0. *)
Theorem sharpe_ratio_unguarded :
  (forall pdr : series float,
      Tracker.sharpe_ratio pdr
      = (Tracker.portfolio_annual_return pdr
         / Tracker.portfolio_volatility pdr)%float)
  /\ (forall pdr : series float,
         PrimFloat.is_zero (Tracker.portfolio_volatility pdr) = true ->
         PrimFloat.is_finite (Tracker.sharpe_ratio pdr) = false)
  /\ (forall provider etfs p weights adj_close (pdr : series float),
         Tracker.count_mismatch weights etfs = false ->
         Tracker.sum_off weights = false ->
         provider etfs p = Some adj_close ->
         Tracker.portfolio_daily_returns (Tracker.daily_returns adj_close)
           (Tracker.weights_series weights etfs) = Some pdr ->
         let o := Tracker.finish (Tracker.analysis provider etfs p weights) in
         Tracker.final o = Tracker.Completed
         /\ In (Tracker.Metric "Sharpe Ratio" (Tracker.sharpe_ratio pdr))
               (Tracker.trace o))
  /\ (Tracker.portfolio_volatility [0; 0; 0]%float = 0%float
      /\ PrimFloat.is_finite (Tracker.sharpe_ratio [0; 0; 0]%float) = false
      /\ Tracker.max_drawdown [0; 0; 0]%float = 0%float).
Proof.
  split; [reflexivity|]. split; [|split].
  - intros pdr Hz. unfold Tracker.sharpe_ratio.
    apply (div_zero_not_finite _ _ Hz).
  - intros provider etfs p weights adj_close pdr.
    apply analysis_renders.
  - repeat split; vm_compute; reflexivity.
Qed.

(** Constant prices: the volatility is zero, the card shows a Sharpe
    ratio that is not finite, and the run completes. *)
Lemma sharpe_ratio_unguarded_witness :
  let provider := fun (_ : list string) (_ : Tracker.period) =>
    Some [("A"%string, [100; 100; 100; 100]%float)] in
  let pdr := [PrimFloat.nan; 0; 0; 0]%float in
  PrimFloat.is_finite (Tracker.sharpe_ratio pdr) = false
  /\ (let o := Tracker.finish
                 (Tracker.analysis provider ["A"%string] Tracker.P1y
                    [1%float]) in
      Tracker.final o = Tracker.Completed
      /\ In (Tracker.Metric "Sharpe Ratio" (Tracker.sharpe_ratio pdr))
            (Tracker.trace o)).
Proof.
  split.
  - apply (proj1 (proj2 sharpe_ratio_unguarded)). vm_compute. reflexivity.
  - apply (proj1 (proj2 (proj2 sharpe_ratio_unguarded))
             _ _ _ _ [("A"%string, [100; 100; 100; 100]%float)]);
      vm_compute; reflexivity.
Defined.

(** In binary64 a constant series need not have volatility zero: the
    mean of three times 0.1 is not 0.1. *)
Example constant_returns_rounding :
  PrimFloat.is_zero
    (Tracker.portfolio_volatility
       [0x1.999999999999ap-4; 0x1.999999999999ap-4; 0x1.999999999999ap-4]%float)
  = false.
Proof. vm_compute. reflexivity. Qed.

(** ** Facts of the exact arithmetic *)

Lemma Rltb_true a b : Rltb a b = true <-> (a < b)%R.
Proof. unfold Rltb. destruct (Rlt_dec a b); split; auto; discriminate. Qed.

Lemma Rltb_false a b : Rltb a b = false <-> (b <= a)%R.
Proof.
  unfold Rltb. destruct (Rlt_dec a b); split; auto; try discriminate; lra.
Qed.

Lemma Rleb_true a b : Rleb a b = true <-> (a <= b)%R.
Proof. unfold Rleb. destruct (Rle_dec a b); split; auto; discriminate. Qed.

Lemma Rleb_false a b : Rleb a b = false <-> (b < a)%R.
Proof.
  unfold Rleb. destruct (Rle_dec a b); split; auto; try discriminate; lra.
Qed.

Lemma Reqb_true a b : Reqb a b = true <-> a = b.
Proof. unfold Reqb. destruct (Req_dec_T a b); split; auto; discriminate. Qed.

Lemma Reqb_false a b : Reqb a b = false <-> a <> b.
Proof.
  unfold Reqb. destruct (Req_dec_T a b); split; auto; try discriminate.
  intros H. contradiction.
Qed.

Lemma X_mul_1_l x : X.mul (Fin 1) x = x.
Proof.
  destruct x as [a|s|]; simpl; [f_equal; lra | | reflexivity].
  assert (E : Reqb 1 0 = false) by (apply Reqb_false; lra).
  assert (L : Rltb 1 0 = false) by (apply Rltb_false; lra).
  rewrite E, L. now destruct s.
Qed.

Lemma X_add_0_r x : X.add x (Fin 0) = x.
Proof. destruct x as [a|s|]; simpl; [f_equal; lra | reflexivity ..]. Qed.


(** ** The two-ticker scenario *)

Set Warnings "-inexact-float".

(** C7.  Tickers A and B, weights one half each, daily returns
    [0.01, -0.02] and [0.03, 0.01].  In binary64 the portfolio daily
    returns are the doubles 0.02 and -0.005 and the portfolio cumulative
    returns are within 1e-4 of 0.02 and 0.0149; in exact arithmetic they
    are these numbers. *)
Theorem two_ticker_scenario :
  (let daily := [("A"%string, [0.01; -0.02]%float);
                 ("B"%string, [0.03; 0.01]%float)] in
   let w := Tracker.weights_series [0.5; 0.5]%float ["A"%string; "B"%string] in
   let pdr := [0.02; -0.005]%float in
   Tracker.portfolio_daily_returns daily w = Some pdr
   /\ all_within (1 # 10000) [2 # 100; -5 # 1000] pdr = true
   /\ all_within (1 # 10000) [2 # 100; 149 # 10000]
        (Tracker.portfolio_cumulative_returns pdr) = true)
  /\ (let daily := [("A"%string, [Fin (1 / 100); Fin (-2 / 100)]);
                    ("B"%string, [Fin (3 / 100); Fin (1 / 100)])] in
      let w := Tracker.weights_series [Fin (1 / 2); Fin (1 / 2)]
                 ["A"%string; "B"%string] in
      let pdr := [Fin (2 / 100); Fin (-5 / 1000)] in
      Tracker.portfolio_daily_returns daily w = Some pdr
      /\ Tracker.portfolio_cumulative_returns pdr
         = [Fin (2 / 100); Fin (149 / 10000)]).
Proof.
  split.
  - repeat split; vm_compute; reflexivity.
  - split; cbn; exact_values.
Qed.

Set Warnings "+inexact-float".

(** The same holds in the exact model. *)
Lemma missing_return_propagates_exact :
  forall (daily : frame xreal) (w : labelled xreal) (pdr : series xreal)
         (t : nat),
    Tracker.portfolio_daily_returns daily w = Some pdr ->
    (t < Pandas.nrows daily)%nat ->
    (exists c, In c daily /\ nth t (snd c) NaN = NaN) ->
    nth_error pdr t = Some NaN.
Proof.
  intros daily w pdr t Hdot Ht [c [Hc Hnan]].
  assert (Hmul : forall x y : xreal, fisnan x = true -> fisnan (fmul x y) = true)
    by (intros [| |] y; simpl; try discriminate; reflexivity).
  assert (Hl : forall x y : xreal, fisnan x = true -> fisnan (fadd x y) = true)
    by (intros [| |] y; simpl; try discriminate; reflexivity).
  assert (Hr : forall x y : xreal, fisnan y = true -> fisnan (fadd x y) = true)
    by (intros [| |] [| |]; simpl; try discriminate; reflexivity).
  destruct (@dot_nan xreal exact Hmul Hl Hr daily w pdr t Hdot Ht) as [v [Hv Hn]].
  - exists c. split; [exact Hc|]. change (@fnan xreal exact) with NaN.
    now rewrite Hnan.
  - rewrite Hv. now destruct v.
Qed.

(** ** Sums in the exact arithmetic *)

Lemma fold_add_Fin (qs : list R) (a : R) :
  fold_left X.add (map Fin qs) (Fin a) = Fin (a + Rsum qs).
Proof.
  revert a. induction qs as [|q qs IH]; intros a; simpl.
  - f_equal. lra.
  - rewrite IH. f_equal. lra.
Qed.




Lemma Rsum_perm (a b : list R) : Permutation a b -> Rsum a = Rsum b.
Proof. induction 1; simpl; lra. Qed.


(** *** Weights looked up by label *)


Lemma lookup_in_keys {A : Type} (l : string) (xs : list (string * A)) :
  In l (map fst xs) -> exists v, lookup l xs = Some v.
Proof.
  induction xs as [|[k u] xs IH]; simpl; [intros []|].
  destruct (String.eqb l k) eqn:E; [eauto|].
  intros [H|H]; [|now apply IH].
  subst k. now rewrite String.eqb_refl in E.
Qed.

Lemma combine_keys {A : Type} (ks : list string) (vs : list A) :
  List.length vs = List.length ks -> map fst (combine ks vs) = ks.
Proof.
  revert vs. induction ks as [|k ks IH]; intros [|v vs]; simpl;
    try discriminate; [reflexivity|].
  intros [= H]. now rewrite IH.
Qed.

Lemma combine_values {A : Type} (ks : list string) (vs : list A) :
  List.length vs = List.length ks -> map snd (combine ks vs) = vs.
Proof.
  revert vs. induction ks as [|k ks IH]; intros [|v vs]; simpl;
    try discriminate; [reflexivity|].
  intros [= H]. now rewrite IH.
Qed.

(** ** The portfolio return when all tickers return the same *)




(** ** Accumulations, entry by entry *)

Section Accumulations.

Context {F : Type}.
Variable op : F -> F -> F.

Lemma accumulate_from_length (acc : F) (xs : list F) :
  List.length (Pandas.accumulate_from op acc xs) = List.length xs.
Proof.
  revert acc. induction xs as [|x xs IH]; intros acc; simpl;
    [reflexivity | now rewrite IH].
Qed.

Lemma accumulate_length (xs : list F) :
  List.length (Pandas.accumulate op xs) = List.length xs.
Proof.
  destruct xs as [|x xs]; simpl; [reflexivity|].
  now rewrite accumulate_from_length.
Qed.

(** Entry [t] of a running result folds the first [t + 1] entries. *)
Lemma accumulate_from_nth (xs : list F) (acc d : F) (t : nat) :
  (t < List.length xs)%nat ->
  nth t (Pandas.accumulate_from op acc xs) d
  = fold_left op (firstn (S t) xs) acc.
Proof.
  revert acc t. induction xs as [|x xs IH]; intros acc t Ht; simpl in Ht;
    [lia|].
  destruct t as [|t]; simpl.
  - now destruct xs.
  - apply IH. lia.
Qed.

Lemma accumulate_nth (one : F) (xs : list F) (d : F) (t : nat) :
  (forall x, op one x = x) ->
  (t < List.length xs)%nat ->
  nth t (Pandas.accumulate op xs) d = fold_left op (firstn (S t) xs) one.
Proof.
  intros Hone Ht. destruct xs as [|x xs]; simpl in Ht; [lia|].
  destruct t as [|t]; simpl.
  - now rewrite Hone.
  - rewrite Hone. apply accumulate_from_nth. lia.
Qed.

End Accumulations.

Lemma map2_nth {A B C : Type} (f : A -> B -> C) xs ys da db dc t :
  (t < List.length xs)%nat -> (t < List.length ys)%nat ->
  nth t (map2 f xs ys) dc = f (nth t xs da) (nth t ys db).
Proof.
  revert ys t. induction xs as [|x xs IH]; intros [|y ys] t Hx Hy;
    simpl in *; try lia.
  destruct t as [|t]; [reflexivity|]. apply IH; lia.
Qed.

Lemma nth_firstn {A : Type} (l : list A) (n t : nat) (d : A) :
  (t < n)%nat -> nth t (firstn n l) d = nth t l d.
Proof.
  revert n t. induction l as [|a l IH]; intros n t H.
  - now rewrite firstn_nil.
  - destruct n as [|n]; [lia|]. destruct t as [|t]; simpl; [reflexivity|].
    apply IH. lia.
Qed.

Lemma per_column_nth_error {F : Type} (f : series F -> series F)
    (df : frame F) (n : nat) (l : string) (c : series F) :
  nth_error df n = Some (l, c) ->
  nth_error (Pandas.per_column f df) n = Some (l, f c).
Proof.
  intros H. unfold Pandas.per_column. rewrite nth_error_map, H. reflexivity.
Qed.

(** ** Cumulative returns in exact arithmetic *)

Lemma X_mul_1_r x : X.mul x (Fin 1) = x.
Proof.
  destruct x as [a|s|]; simpl; [f_equal; lra | | reflexivity].
  assert (E : Reqb 1 0 = false) by (apply Reqb_false; lra).
  assert (L : Rltb 1 0 = false) by (apply Rltb_false; lra).
  rewrite E, L. now destruct s.
Qed.

(** A missing entry counted as 1 is an entry left out. *)
Lemma fold_mul_fillna (ys : list xreal) (acc : xreal) :
  fold_left X.mul (Pandas.fillna (Fin 1) ys) acc
  = fold_left X.mul (dropna ys) acc.
Proof.
  revert acc. induction ys as [|y ys IH]; intros acc; simpl; [reflexivity|].
  unfold Pandas.notna. simpl.
  destruct (X.isnan y); simpl; [rewrite X_mul_1_r|]; apply IH.
Qed.

Lemma cumprod_nth (ys : list xreal) (t : nat) :
  (t < List.length ys)%nat ->
  nth t (Pandas.cumprod ys) NaN
  = if X.isnan (nth t ys NaN) then NaN
    else product (dropna (firstn (S t) ys)).
Proof.
  intros Ht. unfold Pandas.cumprod, Pandas.putmask.
  rewrite (map2_nth _ _ _ NaN NaN NaN);
    [|exact Ht | rewrite accumulate_length; unfold Pandas.fillna;
                 now rewrite length_map].
  change (@fisnan xreal exact) with X.isnan.
  destruct (X.isnan (nth t ys NaN)); [reflexivity|].
  rewrite (accumulate_nth X.mul (Fin 1)).
  - unfold Pandas.fillna at 1. rewrite firstn_map.
    apply (fold_mul_fillna (firstn (S t) ys) (Fin 1)).
  - apply X_mul_1_l.
  - unfold Pandas.fillna. now rewrite length_map.
Qed.

Lemma radd1_nth (d : list xreal) (t : nat) :
  nth t (Pandas.radd1 d) NaN = X.add (Fin 1) (nth t d NaN).
Proof.
  unfold Pandas.radd1.
  exact (map_nth (fadd Pandas.fone) d NaN t).
Qed.

Lemma sub1_nth (w : list xreal) (t : nat) :
  nth t (Pandas.sub1 w) NaN = X.sub (nth t w NaN) (Fin 1).
Proof.
  unfold Pandas.sub1.
  exact (map_nth (fun x : xreal => fsub x Pandas.fone) w NaN t).
Qed.


Lemma isnan_sub_1 x : X.isnan (X.sub x (Fin 1)) = X.isnan x.
Proof. now destruct x. Qed.


Lemma shift_length {F : Type} {SF : Scalar F} (xs : series F) :
  List.length (Pandas.shift xs) = List.length xs.
Proof. unfold Pandas.shift. rewrite length_firstn. simpl. lia. Qed.

Lemma pct_change_nth (prices : list R) (t : nat) :
  (t < List.length prices)%nat ->
  nth t (Pandas.pct_change (map Fin prices)) NaN
  = match t with
    | O => NaN
    | S t' =>
        X.sub (X.div (Fin (nth t prices 0%R)) (Fin (nth t' prices 0%R)))
              (Fin 1)
    end.
Proof.
  intros Ht. unfold Pandas.pct_change.
  rewrite (map2_nth _ _ _ NaN NaN NaN);
    [| now rewrite length_map | now rewrite shift_length, length_map].
  unfold Pandas.shift. rewrite nth_firstn by now rewrite length_map.
  rewrite (nth_indep _ NaN (Fin 0)) by now rewrite length_map.
  rewrite (map_nth Fin prices 0%R t).
  destruct t as [|t']; simpl; [reflexivity|].
  rewrite (nth_indep _ NaN (Fin 0)) by (rewrite length_map; lia).
  now rewrite (map_nth Fin prices 0%R t').
Qed.




(** ** The volatility *)

Lemma fold_add_fillna (xs : list xreal) (acc : xreal) :
  fold_left X.add (Pandas.fillna (Fin 0) xs) acc
  = fold_left X.add (dropna xs) acc.
Proof.
  revert acc. induction xs as [|x xs IH]; intros acc; simpl; [reflexivity|].
  unfold Pandas.notna. simpl.
  destruct (X.isnan x); simpl; [rewrite X_add_0_r|]; apply IH.
Qed.

(** The squares computed on the filled values and then masked add up to
    the squares of the entries that are not missing. *)
Lemma fold_add_masked (g : xreal -> xreal) (xs : list xreal) (acc : xreal) :
  fold_left X.add
    (Pandas.putmask xs (Fin 0) (map g (Pandas.fillna (Fin 0) xs))) acc
  = fold_left X.add (map g (dropna xs)) acc.
Proof.
  revert acc. induction xs as [|x xs IH]; intros acc; simpl; [reflexivity|].
  unfold Pandas.notna. simpl.
  destruct (X.isnan x); simpl; [rewrite X_add_0_r|]; apply IH.
Qed.

(** The square of a difference does not depend on its direction. *)
Lemma X_square_sub (a b : xreal) :
  X.mul (X.sub a b) (X.sub a b) = X.mul (X.sub b a) (X.sub b a).
Proof.
  destruct a as [a|s|], b as [b|s'|]; simpl; try reflexivity.
  - f_equal. ring.
  - now destruct s'.
  - now destruct s.
  - destruct s, s'; reflexivity.
Qed.

(** C8.  In exact arithmetic, for a series with at least two entries that
    are not missing: the annualized volatility is the sample standard
    deviation of those entries, dividing by their number minus one, times
    the square root of 252. *)
Theorem volatility_is_sample_std :
  forall pdr : series xreal,
    (2 <= Pandas.count pdr)%nat ->
    Tracker.portfolio_volatility pdr
    = fmul (sample_std (dropna pdr)) (fsqrt (of_Z 252)).
Proof.
  intros pdr Hn. unfold Tracker.portfolio_volatility, Pandas.std, Pandas.var.
  destruct (Nat.leb_spec (Pandas.count pdr) 1) as [H|_]; [lia|].
  f_equal. f_equal. unfold sample_std, sample_mean, Pandas.np_sum.
  change (@fadd xreal exact) with X.add.
  change (@Pandas.fzero xreal exact) with (Fin 0).
  rewrite fold_add_masked, fold_add_fillna.
  change (List.length (dropna pdr)) with (Pandas.count pdr).
  f_equal. f_equal. f_equal. apply map_ext. intros x. apply X_square_sub.
Qed.

Lemma volatility_is_sample_std_witness :
  Tracker.portfolio_volatility [Fin 1; NaN; Fin 3]
  = fmul (sample_std (dropna [Fin 1; NaN; Fin 3])) (fsqrt (of_Z 252)).
Proof.
  apply (volatility_is_sample_std [Fin 1; NaN; Fin 3]).
  vm_compute. lia.
Defined.

(** *** Constant returns *)

Lemma Rsum_repeat (c : R) (n : nat) : Rsum (repeat c n) = (INR n * c)%R.
Proof.
  induction n as [|n IH]; [simpl; lra|].
  cbn [repeat Rsum]. rewrite IH, S_INR. lra.
Qed.

Lemma np_sum_repeat (c : R) (n : nat) :
  Pandas.np_sum (repeat (Fin c) n) = Fin (INR n * c).
Proof.
  unfold Pandas.np_sum. rewrite <- (map_repeat c n Fin).
  change (@fadd xreal exact) with X.add.
  change (@Pandas.fzero xreal exact) with (Fin 0).
  rewrite fold_add_Fin, Rsum_repeat. f_equal. lra.
Qed.

Lemma of_count_INR (n : nat) : @Pandas.of_count xreal exact n = Fin (INR n).
Proof. unfold Pandas.of_count. simpl. now rewrite INR_IZR_INZ. Qed.

Lemma putmask_repeat (g : xreal -> xreal) (c : R) (n : nat) (v : xreal) :
  Pandas.putmask (repeat (Fin c) n) v (map g (repeat (Fin c) n))
  = repeat (g (Fin c)) n.
Proof.
  induction n as [|n IH]; [reflexivity|].
  change (g (Fin c)
          :: Pandas.putmask (repeat (Fin c) n) v (map g (repeat (Fin c) n))
          = g (Fin c) :: repeat (g (Fin c)) n).
  now rewrite IH.
Qed.

(** In exact arithmetic a constant series of at least two returns has
    volatility 0 (in binary64 it need not: [constant_returns_rounding]),
    and its Sharpe ratio is then not finite. *)
Lemma constant_series_volatility (c : R) (n : nat) :
  (2 <= n)%nat ->
  Tracker.portfolio_volatility (repeat (Fin c) n) = Fin 0.
Proof.
  intros Hn.
  assert (Hcount : Pandas.count (repeat (Fin c) n) = n).
  { unfold Pandas.count. clear. induction n as [|n IH]; [reflexivity|].
    simpl. f_equal. exact IH. }
  assert (Hfill : forall v, Pandas.fillna v (repeat (Fin c) n) = repeat (Fin c) n).
  { intros v. unfold Pandas.fillna. clear. induction n as [|n IH];
      [reflexivity|]. simpl. f_equal. exact IH. }
  assert (Hn0 : (INR n <> 0)%R) by (apply not_0_INR; lia).
  assert (Hn1 : (INR (n - 1) <> 0)%R) by (apply not_0_INR; lia).
  unfold Tracker.portfolio_volatility, Pandas.std, Pandas.var.
  rewrite Hcount, Hfill.
  destruct (Nat.leb_spec n 1) as [H|_]; [lia|].
  rewrite np_sum_repeat, !of_count_INR.
  assert (Eavg : fdiv (Fin (INR n * c)) (Fin (INR n)) = Fin c).
  { simpl. apply Reqb_false in Hn0. rewrite Hn0. f_equal. field.
    now apply Reqb_false. }
  rewrite Eavg.
  assert (Esqr : Pandas.putmask (repeat (Fin c) n) Pandas.fzero
                   (map (fun v => fmul (fsub (Fin c) v) (fsub (Fin c) v))
                        (repeat (Fin c) n))
                 = repeat (Fin 0) n).
  { rewrite putmask_repeat. f_equal. simpl. f_equal. lra. }
  rewrite Esqr, np_sum_repeat.
  assert (Evar : fdiv (Fin (INR n * 0)) (Fin (INR (n - 1))) = Fin 0).
  { simpl. apply Reqb_false in Hn1. rewrite Hn1. f_equal.
    unfold Rdiv. rewrite Rmult_0_r. apply Rmult_0_l. }
  rewrite Evar. simpl.
  assert (L0 : Rltb 0 0 = false) by (apply Rltb_false; lra).
  assert (L252 : Rltb 252 0 = false) by (apply Rltb_false; lra).
  rewrite L0, L252. simpl. f_equal. rewrite sqrt_0. apply Rmult_0_l.
Qed.

Lemma X_div_zero_not_finite (y : xreal) : is_finite (X.div y (Fin 0)) = false.
Proof.
  assert (E : Reqb 0 0 = true) by now apply Reqb_true.
  destruct y as [a|s|]; simpl; rewrite ?E; [|reflexivity ..].
  destruct (Reqb a 0); reflexivity.
Qed.

Lemma constant_series_sharpe (c : R) (n : nat) :
  (2 <= n)%nat ->
  is_finite (Tracker.sharpe_ratio (repeat (Fin c) n)) = false.
Proof.
  intros Hn. unfold Tracker.sharpe_ratio.
  rewrite (constant_series_volatility c n Hn). apply X_div_zero_not_finite.
Qed.

(** ** The maximum drawdown *)

Lemma ratio_le_1 (w m : R) : (0 < m)%R -> (w <= m)%R -> (w / m + - (1) <= 0)%R.
Proof.
  intros Hm Hw. assert (H : (w / m <= 1)%R).
  { apply (Rmult_le_reg_r m); [exact Hm|]. unfold Rdiv.
    rewrite Rmult_assoc, Rinv_l by lra. lra. }
  lra.
Qed.

Lemma ratio_eq_1 (w m : R) : (0 < m)%R -> (w / m + - (1) = 0)%R -> w = m.
Proof.
  intros Hm H. assert (E : (w / m = 1)%R) by lra.
  apply (f_equal (fun x => (x * m)%R)) in E. unfold Rdiv in E.
  rewrite Rmult_assoc, Rinv_l in E by lra. lra.
Qed.

Lemma np_maximum_neg_inf_l (x : xreal) : Pandas.np_maximum (Inf true) x = x.
Proof. destruct x as [a|[]|]; reflexivity. Qed.

Lemma np_maximum_neg_inf_r (top : xreal) :
  top = Inf true \/ (exists m, top = Fin m) ->
  Pandas.np_maximum top (Inf true) = top.
Proof. intros [->|[m ->]]; reflexivity. Qed.

Lemma wealth_from_nan acc ys :
  wealth_from acc (NaN :: ys) = NaN :: wealth_from (X.mul acc (Fin 1)) ys.
Proof. reflexivity. Qed.

Lemma wealth_from_fin acc q ys :
  wealth_from acc (Fin q :: ys) = X.mul acc (Fin q) :: wealth_from (X.mul acc (Fin q)) ys.
Proof. reflexivity. Qed.

Lemma rolling_max_from_nan top ws :
  rolling_max_from top (NaN :: ws)
  = NaN :: rolling_max_from (Pandas.np_maximum top (Inf true)) ws.
Proof. reflexivity. Qed.

Lemma rolling_max_from_fin top w ws :
  rolling_max_from top (Fin w :: ws)
  = Pandas.np_maximum top (Fin w)
    :: rolling_max_from (Pandas.np_maximum top (Fin w)) ws.
Proof. reflexivity. Qed.

Lemma drawdown_from_nan p top ys :
  top = Inf true \/ (exists m, top = Fin m) ->
  drawdown_from (Fin p) top (NaN :: ys)
  = NaN :: drawdown_from (Fin (p * 1)) top ys.
Proof.
  intros Htop. unfold drawdown_from. rewrite wealth_from_nan.
  rewrite rolling_max_from_nan, np_maximum_neg_inf_r by exact Htop.
  reflexivity.
Qed.

Lemma drawdown_from_fin p top q ys :
  drawdown_from (Fin p) top (Fin q :: ys)
  = X.sub (X.div (Fin (p * q)) (Pandas.np_maximum top (Fin (p * q)))) (Fin 1)
    :: drawdown_from (Fin (p * q)) (Pandas.np_maximum top (Fin (p * q))) ys.
Proof.
  unfold drawdown_from. rewrite wealth_from_fin.
  change (X.mul (Fin p) (Fin q)) with (Fin (p * q)).
  rewrite rolling_max_from_fin. reflexivity.
Qed.

Lemma drawdown_entry (w m : R) :
  (0 < m)%R ->
  X.sub (X.div (Fin w) (Fin m)) (Fin 1) = Fin (w / m + - (1)).
Proof.
  intros Hm. simpl. assert (E : Reqb m 0 = false) by (apply Reqb_false; lra).
  now rewrite E.
Qed.

Lemma count_cons_nan (xs : list xreal) :
  Pandas.count (NaN :: xs) = Pandas.count xs.
Proof. reflexivity. Qed.

Lemma count_cons_fin (r : R) (xs : list xreal) :
  Pandas.count (Fin r :: xs) = S (Pandas.count xs).
Proof. reflexivity. Qed.

Lemma nondecreasing_from_weaken (lo lo' : R) (rs : list R) :
  (lo' <= lo)%R -> nondecreasing_from lo rs -> nondecreasing_from lo' rs.
Proof.
  destruct rs as [|r rs]; simpl; [trivial|]. intros H [H1 H2]. split; [lra | exact H2].
Qed.

Lemma drawdown_from_spec (ys : list xreal) :
  forall (p : R) (top : xreal),
    Forall (fun y => y = NaN \/ exists q, y = Fin q /\ (0 < q)%R) ys ->
    (0 < p)%R ->
    (top = Inf true \/ exists m, top = Fin m /\ (p <= m)%R) ->
    Forall drawdown_ok (drawdown_from (Fin p) top ys)
    /\ Pandas.count (drawdown_from (Fin p) top ys) = Pandas.count ys
    /\ ((forall r, In (Fin r) (drawdown_from (Fin p) top ys) -> r = 0%R) ->
        match top with
        | Fin m => nondecreasing_from m (finite_values (wealth_from (Fin p) ys))
        | _ => nondecreasing (finite_values (wealth_from (Fin p) ys))
        end).
Proof.
  induction ys as [|y ys IH]; intros p top Hys Hp Htop.
  - split; [constructor|]. split; [reflexivity|]. intros _.
    destruct top; exact I.
  - inversion Hys as [|y' ys' Hy Hys']; subst.
    assert (Hshape : top = Inf true \/ (exists m, top = Fin m))
      by (destruct Htop as [->|[m [-> _]]]; eauto).
    destruct Hy as [->|[q [-> Hq]]].
    + rewrite drawdown_from_nan by exact Hshape. rewrite wealth_from_nan.
      change (X.mul (Fin p) (Fin 1)) with (Fin (p * 1)).
      destruct (IH (p * 1)%R top Hys') as [Hok [Hcount Hmono]]; [lra | |].
      { destruct Htop as [->|[m [-> Hm]]]; [now left|].
        right. exists m. split; [reflexivity | lra]. }
      split; [constructor; [now left | exact Hok]|].
      split; [now rewrite !count_cons_nan|].
      intros Hzero. simpl finite_values. apply Hmono.
      intros r Hr. apply Hzero. now right.
    + rewrite drawdown_from_fin, wealth_from_fin.
      change (X.mul (Fin p) (Fin q)) with (Fin (p * q)).
      set (w := (p * q)%R).
      assert (Hw : (0 < w)%R) by (apply Rmult_lt_0_compat; assumption).
      destruct Htop as [->|[m [-> Hm]]].
      * rewrite np_maximum_neg_inf_l, drawdown_entry by exact Hw.
        destruct (IH w (Fin w) Hys' Hw) as [Hok [Hcount Hmono]].
        { right. exists w. split; [reflexivity | lra]. }
        split.
        { constructor; [|exact Hok]. right. eexists. split; [reflexivity|].
          apply ratio_le_1; lra. }
        split; [now rewrite !count_cons_fin, Hcount|].
        intros Hzero. simpl. apply Hmono.
        intros r Hr. apply Hzero. now right.
      * unfold Pandas.np_maximum. simpl fisnan. simpl fleb.
        destruct (Rleb w m) eqn:E; simpl orb; cbv iota.
        -- apply Rleb_true in E.
           rewrite drawdown_entry by lra.
           destruct (IH w (Fin m) Hys' Hw) as [Hok [Hcount Hmono]].
           { right. exists m. split; [reflexivity | exact E]. }
           split.
           { constructor; [|exact Hok]. right. eexists. split; [reflexivity|].
             apply ratio_le_1; lra. }
           split; [now rewrite !count_cons_fin, Hcount|].
           intros Hzero. simpl.
           assert (Ew : w = m).
           { apply ratio_eq_1; [lra|]. apply Hzero. now left. }
           split; [lra|]. apply (nondecreasing_from_weaken m w); [exact E|].
           apply Hmono. intros r Hr. apply Hzero. now right.
        -- apply Rleb_false in E.
           rewrite drawdown_entry by exact Hw.
           destruct (IH w (Fin w) Hys' Hw) as [Hok [Hcount Hmono]].
           { right. exists w. split; [reflexivity | lra]. }
           split.
           { constructor; [|exact Hok]. right. eexists. split; [reflexivity|].
             apply ratio_le_1; lra. }
           split; [now rewrite !count_cons_fin, Hcount|].
           intros Hzero. simpl. split; [lra|]. apply Hmono.
           intros r Hr. apply Hzero. now right.
Qed.

Lemma accumulate_unit {F : Type} (op : F -> F -> F) (one : F) (xs : list F) :
  (forall x, op one x = x) ->
  Pandas.accumulate op xs = Pandas.accumulate_from op one xs.
Proof. intros H. destruct xs as [|x xs]; simpl; [reflexivity | now rewrite H]. Qed.

Lemma wealth_from_start (pdr : series xreal) :
  Tracker.wealth pdr = wealth_from (Fin 1) (Pandas.radd1 pdr).
Proof.
  unfold Tracker.wealth, Pandas.cumprod, wealth_from.
  now rewrite (accumulate_unit _ (Fin 1)) by apply X_mul_1_l.
Qed.

Lemma drawdown_from_start (pdr : series xreal) :
  Tracker.drawdown pdr = drawdown_from (Fin 1) (Inf true) (Pandas.radd1 pdr).
Proof.
  unfold Tracker.drawdown, Tracker.rolling_max, Pandas.cummax, drawdown_from,
    rolling_max_from.
  rewrite wealth_from_start.
  now rewrite (accumulate_unit _ (Inf true)) by apply np_maximum_neg_inf_l.
Qed.

Lemma fold_minimum_spec (ds : list xreal) :
  forall acc : xreal,
    Forall (fun d => d = NaN \/ exists r, d = Fin r) ds ->
    (acc = Inf false \/ exists a, acc = Fin a) ->
    let res := fold_left Pandas.np_minimum (Pandas.fillna (Inf false) ds) acc in
    (res = Inf false /\ acc = Inf false /\ Pandas.count ds = 0%nat)
    \/ (exists m, res = Fin m
                  /\ (forall a, acc = Fin a -> (m <= a)%R)
                  /\ (forall r, In (Fin r) ds -> (m <= r)%R)).
Proof.
  induction ds as [|d ds IH]; intros acc Hds Hacc res.
  - subst res. simpl. destruct Hacc as [->|[a ->]]; [now left|].
    right. exists a. split; [reflexivity|]. split.
    + intros a' [= <-]. lra.
    + intros r [].
  - inversion Hds as [|d' ds' Hd Hds']; subst.
    destruct Hd as [->|[r0 ->]].
    + assert (E : Pandas.np_minimum acc (Inf false) = acc)
        by (destruct Hacc as [->|[a ->]]; reflexivity).
      subst res. simpl. rewrite E.
      destruct (IH acc Hds' Hacc) as [[H1 [H2 H3]]|[m [H1 [H2 H3]]]].
      * left. now rewrite count_cons_nan.
      * right. exists m. split; [exact H1|]. split; [exact H2|].
        intros r [Hr|Hr]; [discriminate | now apply H3].
    + assert (E : exists a', Pandas.np_minimum acc (Fin r0) = Fin a'
                             /\ (a' <= r0)%R
                             /\ forall a, acc = Fin a -> (a' <= a)%R).
      { destruct Hacc as [->|[a ->]].
        - exists r0. split; [reflexivity|]. split; [lra|]. intros a [=].
        - unfold Pandas.np_minimum. simpl fisnan. simpl fleb.
          destruct (Rleb a r0) eqn:L; simpl orb; cbv iota.
          + apply Rleb_true in L. exists a. split; [reflexivity|].
            split; [exact L|]. intros a' [= <-]. lra.
          + apply Rleb_false in L. exists r0. split; [reflexivity|].
            split; [lra|]. intros a' [= <-]. lra. }
      destruct E as [a' [E [Ha' Hacc']]].
      subst res. simpl. rewrite E.
      destruct (IH (Fin a') Hds') as [[_ [H2 _]]|[m [H1 [H2 H3]]]];
        [right; now exists a' | discriminate |].
      right. exists m. split; [exact H1|].
      pose proof (H2 a' eq_refl) as Hm. split.
      * intros a Ha. specialize (Hacc' a Ha). lra.
      * intros r [[= <-]|Hr]; [lra | now apply H3].
Qed.












(** An infinite return is not covered.  A price of 0 followed by a price
    of 5 gives a daily return of +infinity; the wealth and its running
    maximum are then infinite, every drawdown is inf/inf - 1, and the
    maximum drawdown is NaN, in the exact model and in binary64 through
    the whole script. *)
Example max_drawdown_infinite_return :
  Tracker.max_drawdown [NaN; Inf false] = NaN
  /\ (let prices := [("A"%string, [0; 5]%float)] in
      let o := Tracker.run decimal_float (fun _ _ => Some prices)
                 "A" Tracker.P1y "1" in
      Tracker.final o = Tracker.Completed
      /\ In (Tracker.DownloadButton "Portfolio Daily Returns CSV"
               [("0"%string, [PrimFloat.nan; PrimFloat.infinity])]
               "portfolio_daily_returns.csv")
            (Tracker.trace o)
      /\ In (Tracker.Metric "Max Drawdown" PrimFloat.nan) (Tracker.trace o)).
Proof.
  split.
  { assert (E : Reqb 1 0 = false) by (apply Reqb_false; lra).
    assert (L : Rltb 1 0 = false) by (apply Rltb_false; lra).
    cbv -[Reqb Rltb Rleb Rplus Rmult Rminus Rdiv IZR].
    rewrite ?E, ?L. reflexivity. }
  repeat split; vm_compute;
    repeat (first [reflexivity | left; reflexivity | right]).
Qed.

(** * Further properties of the script *)

(** ** The shape of a run *)

Section RunShape.

Context {F : Type} {SF : Scalar F}.
Variable py_float : string -> option F.
Variable provider : list string -> Tracker.period -> option (frame F).

(** The events of the rendering, which never halts. *)
Lemma render_completes (adj_close daily cumulative : frame F)
    (pdr pcr : series F) :
  snd (Tracker.render adj_close daily cumulative pdr pcr) = inl tt
  /\ forallb Tracker.is_result
       (fst (Tracker.render adj_close daily cumulative pdr pcr)) = true
  /\ forallb (fun e => negb (Tracker.is_download e))
       (fst (Tracker.render adj_close daily cumulative pdr pcr)) = true.
Proof. repeat split. Qed.

(** The script from the validation on, case by case. *)
Lemma analysis_cases (etfs : list string) (p : Tracker.period)
    (weights : list F) :
  Tracker.finish (Tracker.analysis provider etfs p weights)
  = if Tracker.count_mismatch weights etfs then
      ([Tracker.Error "⚠ Number of weights must match number of ETFs"],
       Tracker.Stopped)
    else if Tracker.sum_off weights then
      ([Tracker.Error "⚠ Weights must sum to 1. Please adjust."],
       Tracker.Stopped)
    else
      match provider etfs p with
      | None => ([Tracker.Download etfs p], Tracker.Raised Tracker.DownloadFailure)
      | Some adj_close =>
          let daily := Tracker.daily_returns adj_close in
          match Tracker.portfolio_daily_returns daily
                  (Tracker.weights_series weights etfs) with
          | None => ([Tracker.Download etfs p], Tracker.Raised Tracker.NotAligned)
          | Some pdr =>
              (Tracker.Download etfs p
               :: fst (Tracker.render adj_close daily
                         (Tracker.cumulative_returns daily) pdr
                         (Tracker.portfolio_cumulative_returns pdr)),
               Tracker.Completed)
          end
      end.
Proof.
  unfold Tracker.analysis.
  destruct (Tracker.count_mismatch weights etfs); [reflexivity|].
  destruct (Tracker.sum_off weights); [reflexivity|].
  destruct (provider etfs p) as [adj_close|]; [|reflexivity]. cbn.
  destruct (Tracker.portfolio_daily_returns _ _) as [pdr|]; reflexivity.
Qed.

(** The whole script: the header, then a parse failure or the rest. *)
Lemma run_cases (etfs : string) (p : Tracker.period) (weights_input : string) :
  Tracker.run py_float provider etfs p weights_input
  = match Tracker.weights_list py_float weights_input with
    | inl bad => (header, Tracker.Raised (Tracker.FloatValueError bad))
    | inr weights =>
        let o := Tracker.finish
                   (Tracker.analysis provider (Tracker.etf_list etfs) p weights) in
        (header ++ Tracker.trace o, Tracker.final o)
    end.
Proof.
  unfold Tracker.run, Tracker.script.
  destruct (Tracker.weights_list py_float weights_input) as [bad|weights];
    [reflexivity|].
  cbn. destruct (Tracker.analysis provider (Tracker.etf_list etfs) p weights)
    as [t [[]|s]]; reflexivity.
Qed.

End RunShape.

Lemma header_quiet (F : Type) :
  existsb Tracker.is_result (@header F) = false
  /\ filter Tracker.is_download (@header F) = []
  /\ existsb Tracker.is_error (@header F) = false.
Proof. repeat split. Qed.

(** X1.  Results are all or nothing.  Whatever the inputs, the parser and
    the provider, a run shows something computed from market data if and
    only if it completes; and a run that completes parsed the weights,
    got a table from the provider, and shows the header, the download and
    the whole rendering of that table, in this order. *)
Theorem results_iff_completed :
  forall (F : Type) (SF : Scalar F) (py_float : string -> option F)
         (provider : list string -> Tracker.period -> option (frame F))
         (etfs : string) (p : Tracker.period) (weights_input : string),
    let o := Tracker.run py_float provider etfs p weights_input in
    (existsb Tracker.is_result (Tracker.trace o) = true
     <-> Tracker.final o = Tracker.Completed)
    /\ (Tracker.final o = Tracker.Completed ->
        exists weights adj_close pdr,
          Tracker.weights_list py_float weights_input = inr weights
          /\ provider (Tracker.etf_list etfs) p = Some adj_close
          /\ Tracker.portfolio_daily_returns (Tracker.daily_returns adj_close)
               (Tracker.weights_series weights (Tracker.etf_list etfs))
             = Some pdr
          /\ Tracker.trace o
             = header
               ++ Tracker.Download (Tracker.etf_list etfs) p
               :: fst (Tracker.render adj_close
                         (Tracker.daily_returns adj_close)
                         (Tracker.cumulative_returns
                            (Tracker.daily_returns adj_close))
                         pdr (Tracker.portfolio_cumulative_returns pdr))).
Proof.
  intros F SF py_float provider etfs p weights_input o. subst o.
  rewrite run_cases.
  destruct (Tracker.weights_list py_float weights_input) as [bad|weights].
  { split; [split|]; discriminate. }
  cbv zeta. rewrite analysis_cases.
  destruct (Tracker.count_mismatch weights (Tracker.etf_list etfs)).
  { split; [split|]; discriminate. }
  destruct (Tracker.sum_off weights).
  { split; [split|]; discriminate. }
  destruct (provider (Tracker.etf_list etfs) p) as [adj_close|] eqn:Hp.
  2: { split; [split|]; discriminate. }
  cbv zeta.
  destruct (Tracker.portfolio_daily_returns _ _) as [pdr|] eqn:Hd.
  2: { split; [split|]; discriminate. }
  split; [split; reflexivity|]. intros _.
  exists weights, adj_close, pdr. repeat split; assumption.
Qed.

(** X2.  The provider is asked at most once, and then for the tickers as
    parsed and the period as chosen; it is asked exactly when the weights
    parse and pass both checks. *)
Theorem provider_asked_once :
  forall (F : Type) (SF : Scalar F) (py_float : string -> option F)
         (provider : list string -> Tracker.period -> option (frame F))
         (etfs : string) (p : Tracker.period) (weights_input : string),
    let o := Tracker.run py_float provider etfs p weights_input in
    (downloads (Tracker.trace o) <= 1)%nat
    /\ (forall e, In e (Tracker.trace o) -> Tracker.is_download e = true ->
          e = Tracker.Download (Tracker.etf_list etfs) p)
    /\ (downloads (Tracker.trace o) = 1%nat
        <-> exists weights,
              Tracker.weights_list py_float weights_input = inr weights
              /\ Tracker.count_mismatch weights (Tracker.etf_list etfs) = false
              /\ Tracker.sum_off weights = false).
Proof.
  intros F SF py_float provider etfs p weights_input o. subst o.
  rewrite run_cases. unfold downloads.
  destruct (Tracker.weights_list py_float weights_input) as [bad|weights].
  { split; [cbn; lia|]. split.
    - intros e He Hd. cbn in He.
      repeat (destruct He as [<-|He]; [discriminate|]). destruct He.
    - split; [discriminate|]. intros [ws [[=] _]]. }
  cbv zeta. rewrite analysis_cases.
  assert (Hin : forall (t : list (Tracker.event F)) e,
             In e (header ++ t) -> Tracker.is_download e = true -> In e t).
  { intros t e He Hd. apply in_app_or in He. destruct He as [He|He]; [|exact He].
    cbn in He. repeat (destruct He as [<-|He]; [discriminate|]). destruct He. }
  destruct (Tracker.count_mismatch weights (Tracker.etf_list etfs)) eqn:Hc.
  { split; [cbn; lia|]. split.
    - intros e He Hd. apply Hin in He; [|exact Hd].
      destruct He as [<-|[]]. discriminate.
    - split; [discriminate|]. intros [ws [[= <-] [H _]]]. congruence. }
  destruct (Tracker.sum_off weights) eqn:Hs.
  { split; [cbn; lia|]. split.
    - intros e He Hd. apply Hin in He; [|exact Hd].
      destruct He as [<-|[]]. discriminate.
    - split; [discriminate|]. intros [ws [[= <-] [_ H]]]. congruence. }
  assert (Hyes : exists ws, @inr string (list F) weights = inr ws
                   /\ Tracker.count_mismatch ws (Tracker.etf_list etfs) = false
                   /\ Tracker.sum_off ws = false)
    by (exists weights; auto).
  destruct (provider (Tracker.etf_list etfs) p) as [adj_close|].
  2: { split; [cbn; lia|]. split.
       - intros e He Hd. apply Hin in He; [|exact Hd].
         destruct He as [<-|[]]. reflexivity.
       - split; [intros _; exact Hyes | reflexivity]. }
  cbv zeta.
  destruct (Tracker.portfolio_daily_returns _ _) as [pdr|].
  2: { split; [cbn; lia|]. split.
       - intros e He Hd. apply Hin in He; [|exact Hd].
         destruct He as [<-|[]]. reflexivity.
       - split; [intros _; exact Hyes | reflexivity]. }
  split; [cbn; lia|]. split.
  - intros e He Hd. apply Hin in He; [|exact Hd].
    destruct He as [<-|He]; [reflexivity|]. cbn in He.
    repeat (destruct He as [<-|He]; [discriminate|]). destruct He.
  - split; [intros _; exact Hyes | reflexivity].
Qed.

(** ** Failures after the validation *)

Lemma columns_per_column {F : Type} (f : series F -> series F) (df : frame F) :
  Pandas.columns (Pandas.per_column f df) = Pandas.columns df.
Proof.
  unfold Pandas.columns, Pandas.per_column. rewrite map_map.
  apply map_ext. reflexivity.
Qed.

Lemma weights_series_keys {F : Type} (weights : list F) (etfs : list string) :
  Tracker.count_mismatch weights etfs = false ->
  map fst (Tracker.weights_series weights etfs) = etfs
  /\ map snd (Tracker.weights_series weights etfs) = weights.
Proof.
  unfold Tracker.count_mismatch. rewrite negb_false_iff, Nat.eqb_eq.
  intros H. unfold Tracker.weights_series.
  split; [now apply combine_keys | now apply combine_values].
Qed.

(** Labels that are not the same on both sides have no dot product. *)
Lemma dot_misaligned {F : Type} {SF : Scalar F} (df : frame F) (w : labelled F) :
  ~ (forall l, In l (Pandas.columns df) <-> In l (map fst w)) ->
  Pandas.dot df w = None.
Proof.
  intros H. unfold Pandas.dot.
  destruct (labels_eqb (Pandas.columns df) (map fst w)) eqn:E.
  { apply labels_eqb_eq in E. exfalso. apply H. intros l. now rewrite E. }
  destruct (subsetb (Pandas.columns df) (map fst w)) eqn:S1;
    [|now rewrite !andb_false_r].
  destruct (subsetb (map fst w) (Pandas.columns df)) eqn:S2;
    [|now rewrite !andb_false_r].
  exfalso. apply H. apply subsetb_incl in S1, S2.
  intros l. split; [apply S1 | apply S2].
Qed.

(** X3.  A failed download is not caught.  When the weights parse and pass
    both checks and the provider fails, the run ends on that failure right
    after the request: nothing is rendered and no message is shown. *)
Theorem download_failure_escapes :
  forall (F : Type) (SF : Scalar F) (py_float : string -> option F)
         (provider : list string -> Tracker.period -> option (frame F))
         (etfs : string) (p : Tracker.period) (weights_input : string)
         (weights : list F),
    Tracker.weights_list py_float weights_input = inr weights ->
    Tracker.count_mismatch weights (Tracker.etf_list etfs) = false ->
    Tracker.sum_off weights = false ->
    provider (Tracker.etf_list etfs) p = None ->
    Tracker.run py_float provider etfs p weights_input
    = (header ++ [Tracker.Download (Tracker.etf_list etfs) p],
       Tracker.Raised Tracker.DownloadFailure).
Proof.
  intros F SF py_float provider etfs p weights_input weights Hw Hc Hs Hp.
  rewrite run_cases, Hw. cbv zeta. rewrite analysis_cases, Hc, Hs, Hp.
  reflexivity.
Qed.

Lemma download_failure_escapes_witness :
  Tracker.run decimal_float (fun _ _ => None) "xlk, spy" Tracker.P6mo
    "0.5, 0.5"
  = (header ++ [Tracker.Download (Tracker.etf_list "xlk, spy") Tracker.P6mo],
     Tracker.Raised Tracker.DownloadFailure).
Proof.
  apply (download_failure_escapes float binary64 decimal_float
           (fun _ _ => None) "xlk, spy" Tracker.P6mo "0.5, 0.5"
           [0x1p-1; 0x1p-1]%float);
    vm_compute; reflexivity.
Defined.

(** X4.  A table whose columns are not the requested tickers aborts the
    run.  When the weights parse and pass both checks and the provider
    answers with a table whose column labels are not, as a set, the
    tickers (a ticker without a column, or a column nobody asked for),
    [DataFrame.dot] raises: the run ends on that exception after the
    download and nothing is rendered. *)
Theorem unmatched_ticker_aborts :
  forall (F : Type) (SF : Scalar F) (py_float : string -> option F)
         (provider : list string -> Tracker.period -> option (frame F))
         (etfs : string) (p : Tracker.period) (weights_input : string)
         (weights : list F) (adj_close : frame F),
    Tracker.weights_list py_float weights_input = inr weights ->
    Tracker.count_mismatch weights (Tracker.etf_list etfs) = false ->
    Tracker.sum_off weights = false ->
    provider (Tracker.etf_list etfs) p = Some adj_close ->
    ~ (forall l, In l (Pandas.columns adj_close)
                 <-> In l (Tracker.etf_list etfs)) ->
    Tracker.run py_float provider etfs p weights_input
    = (header ++ [Tracker.Download (Tracker.etf_list etfs) p],
       Tracker.Raised Tracker.NotAligned).
Proof.
  intros F SF py_float provider etfs p weights_input weights adj_close
    Hw Hc Hs Hp Hne.
  rewrite run_cases, Hw. cbv zeta. rewrite analysis_cases, Hc, Hs, Hp.
  cbv zeta. unfold Tracker.portfolio_daily_returns.
  rewrite dot_misaligned; [reflexivity|].
  unfold Tracker.daily_returns. rewrite columns_per_column.
  destruct (weights_series_keys weights (Tracker.etf_list etfs) Hc) as [-> _].
  exact Hne.
Qed.

Lemma unmatched_ticker_aborts_witness :
  Tracker.run decimal_float
    (fun _ _ => Some [("XLK"%string, [100; 110]%float)])
    "xlk, spy" Tracker.P6mo "0.5, 0.5"
  = (header ++ [Tracker.Download (Tracker.etf_list "xlk, spy") Tracker.P6mo],
     Tracker.Raised Tracker.NotAligned).
Proof.
  apply (unmatched_ticker_aborts float binary64 decimal_float
           (fun _ _ => Some [("XLK"%string, [100; 110]%float)])
           "xlk, spy" Tracker.P6mo "0.5, 0.5"
           [0x1p-1; 0x1p-1]%float [("XLK"%string, [100; 110]%float)]);
    try (vm_compute; reflexivity).
  intros H. destruct (H "SPY"%string) as [_ H2].
  assert (Hin : In "SPY"%string (Tracker.etf_list "xlk, spy"))
    by (vm_compute; auto).
  specialize (H2 Hin). vm_compute in H2.
  destruct H2 as [H2|[]]. discriminate.
Defined.

(** ** The inputs *)

Lemma is_nan_sub_l x y :
  PrimFloat.is_nan x = true -> PrimFloat.is_nan (x - y)%float = true.
Proof. rewrite !is_nan_spec, FloatAxioms.sub_spec. intros ->. reflexivity. Qed.

Lemma is_nan_abs x :
  PrimFloat.is_nan x = true -> PrimFloat.is_nan (PrimFloat.abs x) = true.
Proof. rewrite !is_nan_spec, FloatAxioms.abs_spec. intros ->. reflexivity. Qed.

Lemma ltb_nan_r x y : PrimFloat.is_nan y = true -> PrimFloat.ltb x y = false.
Proof.
  rewrite is_nan_spec, FloatAxioms.ltb_spec. intros ->.
  unfold SFltb. destruct (Prim2SF x); reflexivity.
Qed.

(** X5.  A weight that is NaN passes the sum check.  In binary64, when
    some weight is NaN the sum is NaN, [abs(sum - 1) > 0.001] is false,
    and with as many weights as tickers the run goes on to ask the
    provider instead of halting on a message. *)
Theorem nan_weight_passes :
  forall (provider : list string -> Tracker.period -> option (frame float))
         (etfs : list string) (p : Tracker.period) (weights : list float),
    List.length weights = List.length etfs ->
    (exists w, In w weights /\ PrimFloat.is_nan w = true) ->
    Tracker.sum_off weights = false
    /\ exists rest,
         Tracker.trace (Tracker.finish (Tracker.analysis provider etfs p weights))
         = Tracker.Download etfs p :: rest.
Proof.
  intros provider etfs p weights Hlen [w [Hin Hnan]].
  assert (Hs : Tracker.sum_off weights = false).
  { unfold Tracker.sum_off. apply ltb_nan_r, is_nan_abs, is_nan_sub_l.
    unfold Tracker.py_sum.
    exact (@fold_add_nan_in float binary64 is_nan_add_l is_nan_add_r
             weights (of_Z 0) w Hin Hnan). }
  split; [exact Hs|].
  assert (Hc : Tracker.count_mismatch weights etfs = false).
  { unfold Tracker.count_mismatch. rewrite Hlen, Nat.eqb_refl. reflexivity. }
  rewrite analysis_cases, Hc, Hs.
  destruct (provider etfs p) as [adj_close|]; [|eexists; reflexivity].
  cbv zeta. destruct (Tracker.portfolio_daily_returns _ _);
    eexists; reflexivity.
Qed.

Lemma nan_weight_passes_witness :
  Tracker.sum_off [PrimFloat.nan; 0x1p-1%float] = false
  /\ exists rest,
       Tracker.trace
         (Tracker.finish
            (Tracker.analysis (fun _ _ => None) ["A"%string; "B"%string]
               Tracker.P1y [PrimFloat.nan; 0x1p-1%float]))
       = Tracker.Download ["A"%string; "B"%string] Tracker.P1y :: rest.
Proof.
  apply (nan_weight_passes (fun _ _ => None) ["A"%string; "B"%string]
           Tracker.P1y [PrimFloat.nan; 0x1p-1%float]).
  - reflexivity.
  - exists PrimFloat.nan. split; [left; reflexivity | reflexivity].
Defined.

(** X6.  The count check compares commas.  When every weight parses, the
    number of weights differs from the number of tickers exactly when the
    two input texts differ in their number of commas. *)
Theorem count_check_counts_commas :
  forall (F : Type) (SF : Scalar F) (py_float : string -> option F)
         (etfs weights_input : string) (weights : list F),
    Tracker.weights_list py_float weights_input = inr weights ->
    (Tracker.count_mismatch weights (Tracker.etf_list etfs) = true
     <-> occurrences PyStr.comma weights_input
         <> occurrences PyStr.comma etfs).
Proof.
  intros F SF py_float etfs weights_input weights Hw.
  pose proof (floats_all_or_first py_float
                (PyStr.split PyStr.comma weights_input)) as H.
  unfold Tracker.weights_list in Hw. rewrite Hw in H. destruct H as [Hl _].
  rewrite split_length in Hl.
  rewrite count_mismatch_spec, Hl. unfold Tracker.etf_list.
  rewrite length_map, split_length. lia.
Qed.

Lemma count_check_counts_commas_witness :
  Tracker.count_mismatch [0x1p-1; 0x1p-1]%float (Tracker.etf_list "a,b,c") = true
  <-> occurrences PyStr.comma "0.5, 0.5" <> occurrences PyStr.comma "a,b,c".
Proof.
  apply (count_check_counts_commas float binary64 decimal_float
           "a,b,c" "0.5, 0.5" [0x1p-1; 0x1p-1]%float).
  vm_compute. reflexivity.
Defined.

Lemma comma_upper_char c :
  Ascii.eqb (PyStr.upper_char c) PyStr.comma = Ascii.eqb c PyStr.comma.
Proof. destruct c as [[] [] [] [] [] [] [] []]; reflexivity. Qed.

Lemma split_upper s :
  PyStr.split PyStr.comma (PyStr.upper s)
  = map PyStr.upper (PyStr.split PyStr.comma s).
Proof.
  induction s as [|c s IH]; simpl; [reflexivity|].
  rewrite comma_upper_char, IH.
  destruct (Ascii.eqb c PyStr.comma); [reflexivity|].
  destruct (PyStr.split PyStr.comma s); reflexivity.
Qed.

(** X7.  Tickers are read without regard to case: a ticker input and its
    upper-cased form parse to the same list of tickers. *)
Theorem etf_list_ignores_case :
  forall etfs : string,
    Tracker.etf_list (PyStr.upper etfs) = Tracker.etf_list etfs.
Proof.
  intros etfs. unfold Tracker.etf_list. rewrite split_upper, map_map.
  apply map_ext. intros e. now rewrite strip_upper, upper_idempotent.
Qed.

Lemma join_cons sep f g fs :
  join sep (f :: g :: fs) = String.append f (String sep (join sep (g :: fs))).
Proof. reflexivity. Qed.

Lemma split_join sep s : join sep (PyStr.split sep s) = s.
Proof.
  induction s as [|c s IH]; [reflexivity|]. cbn [PyStr.split].
  destruct (PyStr.split sep s) as [|g fs] eqn:E.
  { pose proof (split_length sep s) as L. rewrite E in L. discriminate. }
  destruct (Ascii.eqb_spec c sep) as [->|Hc].
  - rewrite join_cons, IH. reflexivity.
  - destruct fs as [|h fs].
    + simpl in *. now rewrite IH.
    + rewrite join_cons in *. cbn [String.append]. now rewrite IH.
Qed.

Lemma split_fields_clean sep s :
  Forall (fun f => occurs sep f = false) (PyStr.split sep s).
Proof.
  induction s as [|c s IH]; simpl; [repeat constructor|].
  destruct (Ascii.eqb c sep) eqn:E; [constructor; [reflexivity | exact IH]|].
  destruct (PyStr.split sep s) as [|g fs]; [repeat constructor; simpl; now rewrite E|].
  inversion IH; subst. constructor; [simpl; now rewrite E | assumption].
Qed.

Lemma occurs_upper s : occurs PyStr.comma (PyStr.upper s) = occurs PyStr.comma s.
Proof.
  induction s as [|c s IH]; simpl; [reflexivity|].
  now rewrite comma_upper_char, IH.
Qed.

Lemma occurs_lstrip c s : occurs c s = false -> occurs c (PyStr.lstrip s) = false.
Proof.
  induction s as [|a s IH]; simpl; [trivial|].
  intros H. apply orb_false_iff in H. destruct H as [Ha Hs].
  destruct (PyStr.is_space a); [now apply IH | simpl; now rewrite Ha, Hs].
Qed.

Lemma occurs_rstrip c s : occurs c s = false -> occurs c (PyStr.rstrip s) = false.
Proof.
  induction s as [|a s IH]; simpl; [trivial|].
  intros H. apply orb_false_iff in H. destruct H as [Ha Hs].
  specialize (IH Hs).
  destruct (PyStr.rstrip s) as [|b r].
  - destruct (PyStr.is_space a); simpl; [reflexivity | now rewrite Ha].
  - simpl in *. now rewrite Ha, IH.
Qed.

(** X8.  Splitting loses nothing and leaves no comma behind: the fields
    of a text, joined by commas again, are the text; and no ticker
    contains a comma. *)
Theorem split_fields_rejoin :
  forall s : string,
    join PyStr.comma (PyStr.split PyStr.comma s) = s
    /\ Forall (fun f => occurs PyStr.comma f = false)
              (PyStr.split PyStr.comma s)
    /\ Forall (fun e => occurs PyStr.comma e = false) (Tracker.etf_list s).
Proof.
  intros s. split; [apply split_join|]. split; [apply split_fields_clean|].
  unfold Tracker.etf_list. apply Forall_map.
  apply (Forall_impl _ (P := fun f => occurs PyStr.comma f = false));
    [|apply split_fields_clean].
  intros f Hf. rewrite occurs_upper. unfold PyStr.strip.
  now apply occurs_rstrip, occurs_lstrip.
Qed.

(** ** The shape of the tables *)

Section Shapes.

Context {F : Type} {SF : Scalar F}.

Lemma pct_change_length (xs : series F) :
  List.length (Pandas.pct_change xs) = List.length xs.
Proof.
  unfold Pandas.pct_change. apply map2_length. now rewrite shift_length.
Qed.

Lemma putmask_length (xs : series F) (v : F) (zs : list F) :
  List.length zs = List.length xs ->
  List.length (Pandas.putmask xs v zs) = List.length xs.
Proof. intros H. unfold Pandas.putmask. now apply map2_length. Qed.

Lemma cumprod_length (xs : series F) :
  List.length (Pandas.cumprod xs) = List.length xs.
Proof.
  unfold Pandas.cumprod. apply putmask_length.
  rewrite accumulate_length. unfold Pandas.fillna. apply length_map.
Qed.

Lemma cumulative_length (xs : series F) :
  List.length (Pandas.sub1 (Pandas.cumprod (Pandas.radd1 xs))) = List.length xs.
Proof.
  unfold Pandas.sub1, Pandas.radd1.
  now rewrite length_map, cumprod_length, length_map.
Qed.

Lemma shape_per_column (f : series F -> series F) (df : frame F) :
  (forall xs, List.length (f xs) = List.length xs) ->
  shape (Pandas.per_column f df) = shape df.
Proof.
  intros H. unfold shape, Pandas.per_column. rewrite map_map.
  apply map_ext. intros [l c]. simpl. now rewrite H.
Qed.

Lemma nrows_per_column (f : series F -> series F) (df : frame F) :
  (forall xs, List.length (f xs) = List.length xs) ->
  Pandas.nrows (Pandas.per_column f df) = Pandas.nrows df.
Proof. intros H. destruct df as [|[l c] df]; simpl; [reflexivity | apply H]. Qed.

Lemma dot_length (df : frame F) (w : labelled F) (out : series F) :
  Pandas.dot df w = Some out -> List.length out = Pandas.nrows df.
Proof.
  unfold Pandas.dot. intros H.
  destruct (labels_eqb (Pandas.columns df) (map fst w)).
  - injection H as <-. now rewrite length_map, length_seq.
  - destruct (nodupb (Pandas.columns df) && nodupb (map fst w)
              && subsetb (Pandas.columns df) (map fst w)
              && subsetb (map fst w) (Pandas.columns df)); [|discriminate].
    injection H as <-. now rewrite length_map, length_seq.
Qed.

End Shapes.

(** X9.  Every table has one row per date of the prices.  The daily and
    the cumulative returns have the labels and the column lengths of the
    price table, and the portfolio daily and cumulative returns have as
    many entries as the price table has rows. *)
Theorem tables_keep_shape :
  forall (F : Type) (SF : Scalar F) (adj_close : frame F) (w : labelled F)
         (pdr : series F),
    Tracker.portfolio_daily_returns (Tracker.daily_returns adj_close) w
    = Some pdr ->
    shape (Tracker.daily_returns adj_close) = shape adj_close
    /\ shape (Tracker.cumulative_returns (Tracker.daily_returns adj_close))
       = shape adj_close
    /\ List.length pdr = Pandas.nrows adj_close
    /\ List.length (Tracker.portfolio_cumulative_returns pdr)
       = Pandas.nrows adj_close.
Proof.
  intros F SF adj_close w pdr Hdot.
  assert (H1 : shape (Tracker.daily_returns adj_close) = shape adj_close)
    by (apply shape_per_column, pct_change_length).
  assert (H3 : List.length pdr = Pandas.nrows adj_close).
  { apply dot_length in Hdot. rewrite Hdot.
    apply nrows_per_column, pct_change_length. }
  split; [exact H1|]. split.
  - unfold Tracker.cumulative_returns.
    rewrite shape_per_column by apply cumulative_length. exact H1.
  - split; [exact H3|].
    unfold Tracker.portfolio_cumulative_returns.
    now rewrite cumulative_length.
Qed.

Lemma tables_keep_shape_witness :
  let adj_close := [("A"%string, [100; 150; 75]%float);
                    ("B"%string, [100; 125; 250]%float)] in
  let pdr := [PrimFloat.nan; 0x1.8p-2; 0x1p-2]%float in
  shape (Tracker.daily_returns adj_close) = shape adj_close
  /\ shape (Tracker.cumulative_returns (Tracker.daily_returns adj_close))
     = shape adj_close
  /\ List.length pdr = Pandas.nrows adj_close
  /\ List.length (Tracker.portfolio_cumulative_returns pdr)
     = Pandas.nrows adj_close.
Proof.
  apply (tables_keep_shape float binary64
           [("A"%string, [100; 150; 75]%float);
            ("B"%string, [100; 125; 250]%float)]
           [("A"%string, 0x1p-1%float); ("B"%string, 0x1p-1%float)]).
  vm_compute. reflexivity.
Defined.

(** ** Cumulative returns and the price ratio *)

Lemma firstn_snoc {A : Type} (l : list A) (t : nat) (d : A) :
  (t < List.length l)%nat -> firstn (S t) l = firstn t l ++ [nth t l d].
Proof.
  revert t. induction l as [|a l IH]; intros t Ht; simpl in Ht; [lia|].
  destruct t as [|t]; [reflexivity|].
  cbn [firstn nth app]. f_equal. apply IH. lia.
Qed.

Lemma product_snoc (l : list xreal) (y : xreal) :
  product (l ++ [y]) = X.mul (product l) y.
Proof. unfold product. now rewrite fold_left_app. Qed.

Lemma dropna_snoc (l : list xreal) (a : R) :
  dropna (l ++ [Fin a]) = dropna l ++ [Fin a].
Proof. unfold dropna. now rewrite filter_app. Qed.

Lemma growth_nth (prices : list R) (t : nat) :
  (forall q, In q prices -> q <> 0%R) ->
  (S t < List.length prices)%nat ->
  nth (S t) (Pandas.radd1 (Pandas.pct_change (map Fin prices))) NaN
  = Fin (1 + (nth (S t) prices 0%R / nth t prices 0%R + - (1))).
Proof.
  intros Hnz Ht. rewrite radd1_nth, pct_change_nth by exact Ht.
  assert (E : Reqb (nth t prices 0%R) 0 = false).
  { apply Reqb_false, Hnz, nth_In. lia. }
  simpl. now rewrite E.
Qed.

(** The running product of the growth factors is the price ratio. *)
Lemma growth_product (prices : list R) :
  (forall q, In q prices -> q <> 0%R) ->
  forall t, (t < List.length prices)%nat ->
    product (dropna (firstn (S t)
                       (Pandas.radd1 (Pandas.pct_change (map Fin prices)))))
    = Fin (nth t prices 0%R / nth 0 prices 0%R).
Proof.
  intros Hnz.
  assert (Hlen : List.length (Pandas.radd1 (Pandas.pct_change (map Fin prices)))
                 = List.length prices).
  { unfold Pandas.radd1. now rewrite length_map, pct_change_length, length_map. }
  induction t as [|t IH]; intros Ht.
  - rewrite (firstn_snoc _ 0 NaN) by lia.
    rewrite radd1_nth, pct_change_nth by exact Ht. cbn.
    f_equal. field. apply Hnz, nth_In. exact Ht.
  - rewrite (firstn_snoc _ (S t) NaN) by lia.
    rewrite growth_nth by assumption.
    rewrite dropna_snoc, product_snoc, IH by lia. cbn [X.mul]. f_equal. field.
    split; apply Hnz, nth_In; lia.
Qed.

(** X10.  The cumulative return is the price ratio minus one.  In exact
    arithmetic, for a ticker whose prices are never missing and never
    zero, the cumulative return at every date after the first is the price
    at that date over the first price, minus 1: the days in between play
    no part. *)
Theorem cumulative_return_is_price_ratio :
  forall (adj_close : frame xreal) (n : nat) (ticker : string)
         (prices : list R) (t : nat),
    nth_error adj_close n = Some (ticker, map Fin prices) ->
    (forall q, In q prices -> q <> 0%R) ->
    (1 <= t < List.length prices)%nat ->
    exists c,
      nth_error (Tracker.cumulative_returns (Tracker.daily_returns adj_close))
        n = Some (ticker, c)
      /\ nth t c NaN = Fin (nth t prices 0%R / nth 0 prices 0%R - 1).
Proof.
  intros adj_close n ticker prices t Hcol Hnz [H1 Ht].
  set (d := Pandas.pct_change (map Fin prices)).
  exists (Pandas.sub1 (Pandas.cumprod (Pandas.radd1 d))). split.
  { unfold Tracker.cumulative_returns.
    exact (per_column_nth_error
             (fun c => Pandas.sub1 (Pandas.cumprod (Pandas.radd1 c))) _ n _ _
             (per_column_nth_error Pandas.pct_change adj_close n _ _ Hcol)). }
  assert (Hlen : List.length (Pandas.radd1 d) = List.length prices).
  { subst d. unfold Pandas.radd1.
    now rewrite length_map, pct_change_length, length_map. }
  rewrite sub1_nth, cumprod_nth by lia.
  destruct t as [|t]; [lia|].
  subst d. rewrite growth_nth by assumption. cbn [X.isnan].
  rewrite growth_product by assumption. cbn. f_equal.
Qed.

Lemma cumulative_return_is_price_ratio_witness :
  exists c,
    nth_error (Tracker.cumulative_returns
                 (Tracker.daily_returns
                    [("A"%string, map Fin [100; 110; 99]%R)])) 0
    = Some ("A"%string, c)
    /\ nth 2 c NaN = Fin (nth 2 [100; 110; 99]%R 0%R
                          / nth 0 [100; 110; 99]%R 0%R - 1).
Proof.
  apply (cumulative_return_is_price_ratio
           [("A"%string, map Fin [100; 110; 99]%R)] 0 "A"%string
           [100; 110; 99]%R 2).
  - reflexivity.
  - intros q [<-|[<-|[<-|[]]]]; lra.
  - simpl. lia.
Defined.

(** ** Weights are matched with columns by label *)

Lemma map2_Fin_mul (xs ys : list R) :
  map2 (@fmul xreal exact) (map Fin xs) (map Fin ys)
  = map Fin (map2 Rmult xs ys).
Proof.
  revert ys. induction xs as [|x xs IH]; intros [|y ys]; simpl;
    try reflexivity. now rewrite IH.
Qed.

Lemma np_dot_Fin (xs ys : list R) :
  Pandas.np_dot (map Fin xs) (map Fin ys) = Fin (0 + Rsum (map2 Rmult xs ys)).
Proof.
  unfold Pandas.np_dot, Pandas.np_sum. rewrite map2_Fin_mul.
  apply fold_add_Fin.
Qed.

Lemma weighted_sum_map2 (ret : string -> R) (etfs : list string) (ws : list R) :
  weighted_sum ret etfs ws = Rsum (map2 Rmult (map ret etfs) ws).
Proof.
  revert ws. induction etfs as [|l etfs IH]; intros [|w ws]; simpl;
    try reflexivity. now rewrite IH.
Qed.

Lemma lookup_combine_Fin (l : string) (etfs : list string) (ws : list R) :
  lookup l (combine etfs (map Fin ws))
  = option_map Fin (lookup l (combine etfs ws)).
Proof.
  revert ws. induction etfs as [|k etfs IH]; intros [|w ws]; simpl;
    try reflexivity.
  destruct (String.eqb l k); [reflexivity | apply IH].
Qed.

(** The weighted sum taken label by label. *)
Lemma weighted_sum_by_label (ret : string -> R) (etfs : list string)
    (ws : list R) :
  NoDup etfs -> List.length ws = List.length etfs ->
  Rsum (map (fun l => ret l * match lookup l (combine etfs ws) with
                              | Some a => a
                              | None => 0
                              end)%R etfs)
  = weighted_sum ret etfs ws.
Proof.
  revert ws. induction etfs as [|k etfs IH]; intros [|w ws] Hnd Hlen;
    simpl in *; try discriminate; [reflexivity|].
  inversion Hnd as [|x xs Hk Hks]; subst. injection Hlen as Hlen.
  rewrite String.eqb_refl. f_equal.
  rewrite <- (IH ws Hks Hlen). f_equal. apply map_ext_in. intros l Hl.
  destruct (String.eqb l k) eqn:E; [|reflexivity].
  apply String.eqb_eq in E. subst l. contradiction.
Qed.

(** X11.  Weights are matched with the columns by ticker, not by
    position.  In exact arithmetic: the tickers are distinct, the weights
    are as many, and the table's columns are the tickers in any order;
    on a date on which every ticker has a return, [DataFrame.dot] does not
    raise and the portfolio return is the sum of each ticker's return
    times the weight entered at that ticker's position. *)
Theorem portfolio_return_by_label :
  forall (etfs : list string) (ws : list R) (daily : frame xreal)
         (ret : string -> R) (t : nat),
    NoDup etfs ->
    List.length ws = List.length etfs ->
    Permutation (Pandas.columns daily) etfs ->
    (t < Pandas.nrows daily)%nat ->
    (forall l col, In (l, col) daily -> nth t col NaN = Fin (ret l)) ->
    exists pdr,
      Tracker.portfolio_daily_returns daily
        (Tracker.weights_series (map Fin ws) etfs) = Some pdr
      /\ nth_error pdr t = Some (Fin (weighted_sum ret etfs ws)).
Proof.
  intros etfs ws daily ret t Hnd Hlen Hperm Ht Hrow.
  assert (Hfin : List.length (map Fin ws) = List.length etfs)
    by now rewrite length_map.
  unfold Tracker.portfolio_daily_returns, Tracker.weights_series, Pandas.dot.
  rewrite (combine_keys etfs (map Fin ws) Hfin).
  rewrite (combine_values etfs (map Fin ws) Hfin).
  destruct (labels_eqb (Pandas.columns daily) etfs) eqn:E.
  - eexists. split; [reflexivity|].
    rewrite nth_error_map_seq by exact Ht. f_equal.
    apply labels_eqb_eq in E.
    assert (Er : Pandas.row daily t = map Fin (map ret etfs)).
    { rewrite <- E. unfold Pandas.row, Pandas.columns. rewrite !map_map.
      apply map_ext_in. intros [l col] Hin. exact (Hrow l col Hin). }
    rewrite Er, np_dot_Fin, weighted_sum_map2. f_equal. lra.
  - assert (Hndc : NoDup (Pandas.columns daily))
      by exact (Permutation_NoDup (Permutation_sym Hperm) Hnd).
    assert (A : nodupb (Pandas.columns daily) && nodupb etfs
                && subsetb (Pandas.columns daily) etfs
                && subsetb etfs (Pandas.columns daily) = true).
    { rewrite !andb_true_iff. repeat split.
      - now apply nodupb_NoDup.
      - now apply nodupb_NoDup.
      - apply subsetb_incl. intros l. apply (Permutation_in _ Hperm).
      - apply subsetb_incl. intros l.
        apply (Permutation_in _ (Permutation_sym Hperm)). }
    rewrite A. eexists. split; [reflexivity|].
    rewrite nth_error_map_seq by exact Ht. f_equal.
    set (common := sort_labels (Pandas.columns daily)).
    assert (Pc : Permutation common etfs).
    { transitivity (Pandas.columns daily); [apply sort_labels_perm | exact Hperm]. }
    set (g := fun l => match lookup l (combine etfs ws) with
                       | Some a => a
                       | None => 0%R
                       end).
    assert (Er : Pandas.row_at daily common t = map Fin (map ret common)).
    { unfold Pandas.row_at. rewrite map_map. apply map_ext_in. intros l Hl.
      assert (Hc : In l (map fst daily)).
      { apply (Permutation_in _ (sort_labels_perm _)) in Hl. exact Hl. }
      destruct (lookup_in_keys l daily Hc) as [col Hcol].
      rewrite Hcol. apply lookup_In in Hcol. exact (Hrow l col Hcol). }
    assert (Ev : Pandas.values_at (combine etfs (map Fin ws)) common
                 = map Fin (map g common)).
    { unfold Pandas.values_at. rewrite map_map. apply map_ext_in. intros l Hl.
      rewrite lookup_combine_Fin. subst g. cbv beta.
      assert (Hk : In l (map fst (combine etfs ws)))
        by (rewrite (combine_keys etfs ws Hlen);
            exact (Permutation_in _ Pc Hl)).
      destruct (lookup_in_keys l _ Hk) as [a Ha]. now rewrite Ha. }
    rewrite Er, Ev, np_dot_Fin, map2_map.
    rewrite (Rsum_perm _ _ (Permutation_map (fun l => (ret l * g l)%R) Pc)).
    subst g. cbv beta. rewrite (weighted_sum_by_label ret etfs ws Hnd Hlen).
    f_equal. lra.
Qed.

Lemma portfolio_return_by_label_witness :
  exists pdr,
    Tracker.portfolio_daily_returns
      [("SPY"%string, [Fin 2]); ("XLK"%string, [Fin 5])]
      (Tracker.weights_series (map Fin [3; -2]%R)
         ["XLK"%string; "SPY"%string]) = Some pdr
    /\ nth_error pdr 0
       = Some (Fin (weighted_sum
                      (fun l => if String.eqb l "XLK" then 5 else 2)%R
                      ["XLK"%string; "SPY"%string] [3; -2]%R)).
Proof.
  apply (portfolio_return_by_label ["XLK"%string; "SPY"%string] [3; -2]%R
           [("SPY"%string, [Fin 2]); ("XLK"%string, [Fin 5])]
           (fun l => if String.eqb l "XLK" then 5 else 2)%R 0).
  - repeat constructor; simpl; intuition discriminate.
  - reflexivity.
  - apply perm_swap.
  - simpl. lia.
  - intros l col [H|[H|[]]]; inversion H; subst; reflexivity.
Defined.

(** ** Missing returns and the metrics, in binary64 *)

Lemma is_nan_div_l x y :
  PrimFloat.is_nan x = true -> PrimFloat.is_nan (x / y)%float = true.
Proof. rewrite !is_nan_spec, FloatAxioms.div_spec. intros ->. reflexivity. Qed.

Lemma is_nan_div_r x y :
  PrimFloat.is_nan y = true -> PrimFloat.is_nan (x / y)%float = true.
Proof.
  rewrite !is_nan_spec, FloatAxioms.div_spec. intros ->.
  destruct (Prim2SF x); reflexivity.
Qed.

Lemma count_le_length (xs : series float) :
  (Pandas.count xs <= List.length xs)%nat.
Proof. unfold Pandas.count. apply filter_length_le. Qed.

Lemma count_zero_all_nan (xs : series float) :
  Pandas.count xs = 0%nat <-> Forall (fun x => PrimFloat.is_nan x = true) xs.
Proof.
  unfold Pandas.count, Pandas.notna. induction xs as [|x xs IH]; simpl.
  - split; [constructor | reflexivity].
  - change (@fisnan float binary64 x) with (PrimFloat.is_nan x).
    destruct (PrimFloat.is_nan x) eqn:E; simpl.
    + rewrite IH. split; [now constructor | now inversion 1].
    + split; [discriminate|]. inversion 1; congruence.
Qed.

Lemma putmask_all_nan (xs : series float) (zs : list float) :
  Forall (fun x => PrimFloat.is_nan x = true) xs ->
  Forall (fun x => PrimFloat.is_nan x = true)
         (Pandas.putmask xs PrimFloat.nan zs).
Proof.
  intros H. revert zs. induction H as [|x xs Hx _ IH]; intros [|z zs];
    try constructor.
  - change (PrimFloat.is_nan (if PrimFloat.is_nan x then PrimFloat.nan else z)
            = true). now rewrite Hx.
  - apply IH.
Qed.

Lemma map2_all_nan (f : float -> float -> float) (xs ys : list float) :
  (forall x y, PrimFloat.is_nan x = true -> PrimFloat.is_nan (f x y) = true) ->
  Forall (fun x => PrimFloat.is_nan x = true) xs ->
  Forall (fun x => PrimFloat.is_nan x = true) (map2 f xs ys).
Proof.
  intros Hf H. revert ys. induction H as [|x xs Hx _ IH]; intros [|y ys];
    try constructor; [now apply Hf | apply IH].
Qed.

(** A series with no return has no drawdown. *)
Lemma drawdown_all_nan (pdr : series float) :
  Forall (fun x => PrimFloat.is_nan x = true) pdr ->
  Forall (fun x => PrimFloat.is_nan x = true) (Tracker.drawdown pdr).
Proof.
  intros H. unfold Tracker.drawdown, Tracker.rolling_max, Tracker.wealth.
  unfold Pandas.sub1. apply Forall_map.
  assert (Hw : Forall (fun x => PrimFloat.is_nan x = true)
                 (Pandas.cumprod (Pandas.radd1 pdr))).
  { apply putmask_all_nan. unfold Pandas.radd1. apply Forall_map.
    apply (Forall_impl _ (P := fun x => PrimFloat.is_nan x = true));
      [|exact H].
    intros x Hx. now apply is_nan_add_r. }
  apply (Forall_impl _ (P := fun x => PrimFloat.is_nan x = true)).
  { intros x Hx. now apply is_nan_sub_l. }
  apply map2_all_nan; [apply is_nan_div_l | exact Hw].
Qed.

(** X12.  Too few returns leave the metrics undefined.  In binary64, for
    every portfolio daily-return series: with at most one return that is
    not missing the annualized volatility and the Sharpe ratio are NaN;
    with none, the annualized return and the maximum drawdown are NaN
    too. *)
Theorem too_few_returns :
  forall pdr : series float,
    ((Pandas.count pdr <= 1)%nat ->
     PrimFloat.is_nan (Tracker.portfolio_volatility pdr) = true
     /\ PrimFloat.is_nan (Tracker.sharpe_ratio pdr) = true)
    /\ (Pandas.count pdr = 0%nat ->
        PrimFloat.is_nan (Tracker.portfolio_annual_return pdr) = true
        /\ PrimFloat.is_nan (Tracker.max_drawdown pdr) = true).
Proof.
  intros pdr. split.
  - intros Hc.
    assert (Hv : PrimFloat.is_nan (Tracker.portfolio_volatility pdr) = true).
    { unfold Tracker.portfolio_volatility, Pandas.std, Pandas.var.
      destruct (Nat.leb_spec (Pandas.count pdr) 1) as [_|H]; [|lia].
      vm_compute. reflexivity. }
    split; [exact Hv|]. unfold Tracker.sharpe_ratio.
    now apply is_nan_div_r.
  - intros Hc. split.
    + unfold Tracker.portfolio_annual_return, Pandas.mean. rewrite Hc.
      vm_compute. reflexivity.
    + unfold Tracker.max_drawdown, Pandas.min.
      apply count_zero_all_nan, drawdown_all_nan, count_zero_all_nan in Hc.
      rewrite Hc. reflexivity.
Qed.

Lemma too_few_returns_witness :
  (PrimFloat.is_nan
     (Tracker.portfolio_volatility [PrimFloat.nan; 0x1p-4%float]) = true
   /\ PrimFloat.is_nan
        (Tracker.sharpe_ratio [PrimFloat.nan; 0x1p-4%float]) = true)
  /\ (PrimFloat.is_nan (Tracker.portfolio_annual_return [PrimFloat.nan]) = true
      /\ PrimFloat.is_nan (Tracker.max_drawdown [PrimFloat.nan]) = true).
Proof.
  split.
  - apply (proj1 (too_few_returns [PrimFloat.nan; 0x1p-4%float])).
    vm_compute. lia.
  - apply (proj2 (too_few_returns [PrimFloat.nan])). reflexivity.
Defined.

(** X13.  The first portfolio return is always missing.  In binary64, for
    every price table with at least one column and one row whose labels
    match the weights: the first entry of the portfolio daily returns and
    of the portfolio cumulative returns is NaN, so the returns that are
    not missing are fewer than the rows. *)
Theorem first_portfolio_return_missing :
  forall (adj_close : frame float) (w : labelled float) (pdr : series float),
    adj_close <> [] ->
    (1 <= Pandas.nrows adj_close)%nat ->
    Tracker.portfolio_daily_returns (Tracker.daily_returns adj_close) w
    = Some pdr ->
    PrimFloat.is_nan (nth 0 pdr 0%float) = true
    /\ PrimFloat.is_nan
         (nth 0 (Tracker.portfolio_cumulative_returns pdr) 0%float) = true
    /\ (Pandas.count pdr < Pandas.nrows adj_close)%nat.
Proof.
  intros adj_close w pdr Hne Hrows Hdot.
  assert (Hn : Pandas.nrows (Tracker.daily_returns adj_close)
               = Pandas.nrows adj_close)
    by apply nrows_per_column, pct_change_length.
  assert (Hlen : List.length pdr = Pandas.nrows adj_close).
  { unfold Tracker.portfolio_daily_returns in Hdot.
    apply dot_length in Hdot. now rewrite Hdot. }
  destruct (@dot_nan float binary64 is_nan_mul_l is_nan_add_l is_nan_add_r
              (Tracker.daily_returns adj_close) w pdr 0 Hdot)
    as [v [Hv Hnan]].
  { lia. }
  { destruct adj_close as [|[l col] rest]; [contradiction|].
    exists (l, Pandas.pct_change col). split; [now left|].
    destruct col as [|x xs]; [reflexivity|].
    apply is_nan_sub_l, is_nan_div_r. reflexivity. }
  destruct pdr as [|v' rest]; [discriminate|]. injection Hv as ->.
  split; [exact Hnan|]. split.
  - unfold Tracker.portfolio_cumulative_returns, Pandas.sub1, Pandas.cumprod,
      Pandas.putmask, Pandas.radd1.
    cbn [map map2 nth Pandas.fillna Pandas.accumulate].
    apply is_nan_sub_l.
    change (@fisnan float binary64) with PrimFloat.is_nan.
    change (@fadd float binary64) with PrimFloat.add.
    now rewrite (is_nan_add_r Pandas.fone v Hnan).
  - rewrite <- Hlen. unfold Pandas.count. cbn [filter List.length].
    unfold Pandas.notna at 1. rewrite Hnan. cbn [negb].
    pose proof (count_le_length rest) as H. unfold Pandas.count in H. lia.
Qed.

Lemma first_portfolio_return_missing_witness :
  let pdr := [PrimFloat.nan; 0x1.8p-2; 0x1p-2]%float in
  PrimFloat.is_nan (nth 0 pdr 0%float) = true
  /\ PrimFloat.is_nan
       (nth 0 (Tracker.portfolio_cumulative_returns pdr) 0%float) = true
  /\ (Pandas.count pdr
      < Pandas.nrows [("A"%string, [100; 150; 75]%float);
                      ("B"%string, [100; 125; 250]%float)])%nat.
Proof.
  apply (first_portfolio_return_missing
           [("A"%string, [100; 150; 75]%float);
            ("B"%string, [100; 125; 250]%float)]
           [("A"%string, 0x1p-1%float); ("B"%string, 0x1p-1%float)]).
  - discriminate.
  - simpl. lia.
  - vm_compute. reflexivity.
Defined.

(** ** The sum check and the annualized return in exact arithmetic *)

(** X14.  The sum check in exact arithmetic.  For weights that are real
    numbers the check fails exactly when their sum is more than 0.001
    away from 1; a sum at that distance passes. *)
Theorem sum_check_exact :
  forall ws : list R,
    Tracker.sum_off (map Fin ws) = true
    <-> (1 / 1000 < Rabs (Rsum ws - 1))%R.
Proof.
  intros ws. unfold Tracker.sum_off, Tracker.py_sum, Tracker.tolerance.
  change (@fadd xreal exact) with X.add.
  change (@of_Z xreal exact 0) with (Fin 0).
  rewrite fold_add_Fin. simpl.
  assert (E : Reqb 1000 0 = false) by (apply Reqb_false; lra).
  rewrite E. cbn [X.ltb]. rewrite Rltb_true.
  replace (0 + Rsum ws + - (1))%R with (Rsum ws - 1)%R by lra.
  reflexivity.
Qed.

Lemma dropna_finite_values (xs : list xreal) :
  Forall (fun x => x = NaN \/ exists r, x = Fin r) xs ->
  dropna xs = map Fin (finite_values xs)
  /\ Pandas.count xs = List.length (finite_values xs).
Proof.
  unfold Pandas.count. fold (@dropna xreal exact).
  induction 1 as [|x xs Hx _ [IH1 IH2]]; [split; reflexivity|].
  destruct Hx as [->|[r ->]]; simpl.
  - split; [exact IH1 | exact IH2].
  - unfold dropna in *. simpl. rewrite IH1. split; [reflexivity|].
    simpl. now rewrite <- IH2, IH1.
Qed.

(** X15.  The annualized return counts only the returns that are there.
    In exact arithmetic, for a series whose entries are missing or real
    numbers, with at least one that is not missing: the annualized return
    is 252 times the sum of the returns that are not missing over their
    number. *)
Theorem annual_return_mean :
  forall pdr : series xreal,
    Forall (fun x => x = NaN \/ exists r, x = Fin r) pdr ->
    (1 <= Pandas.count pdr)%nat ->
    Tracker.portfolio_annual_return pdr
    = Fin (Rsum (finite_values pdr)
           / INR (List.length (finite_values pdr)) * 252).
Proof.
  intros pdr Hshape Hn.
  destruct (dropna_finite_values pdr Hshape) as [Hd Hc].
  unfold Tracker.portfolio_annual_return, Pandas.mean.
  destruct (Nat.eqb_spec (Pandas.count pdr) 0) as [H0|_]; [lia|].
  unfold Pandas.np_sum.
  change (@fadd xreal exact) with X.add.
  change (@Pandas.fzero xreal exact) with (Fin 0).
  rewrite fold_add_fillna, Hd, fold_add_Fin, of_count_INR, Hc.
  assert (E : Reqb (INR (List.length (finite_values pdr))) 0 = false).
  { apply Reqb_false, not_0_INR. lia. }
  simpl. rewrite E. f_equal.
  replace (0 + Rsum (finite_values pdr))%R with (Rsum (finite_values pdr))
    by lra.
  reflexivity.
Qed.

Lemma annual_return_mean_witness :
  Tracker.portfolio_annual_return [NaN; Fin (1 / 100); Fin (3 / 100)]
  = Fin (Rsum (finite_values [NaN; Fin (1 / 100); Fin (3 / 100)])
         / INR (List.length
                  (finite_values [NaN; Fin (1 / 100); Fin (3 / 100)]))
         * 252).
Proof.
  apply (annual_return_mean [NaN; Fin (1 / 100); Fin (3 / 100)]).
  - apply Forall_cons; [now left|].
    apply Forall_cons; [right; now eexists|].
    apply Forall_cons; [right; now eexists|]. apply Forall_nil.
  - cbv. lia.
Defined.

(** ** More on the drawdown *)

Lemma ratio_above_0 (w m : R) :
  (0 < w)%R -> (0 < m)%R -> (-1 < w / m + - (1))%R.
Proof.
  intros Hw Hm. assert (H : (0 < w / m)%R) by now apply Rdiv_lt_0_compat.
  lra.
Qed.

Lemma ratio_self (w : R) : (0 < w)%R -> (w / w + - (1) = 0)%R.
Proof. intros Hw. field. lra. Qed.

(** While the wealth stays positive every drawdown is above -1, and
    while it never falls every drawdown is 0. *)
Lemma drawdown_from_floor (ys : list xreal) :
  forall (p : R) (top : xreal),
    Forall (fun y => y = NaN \/ exists q, y = Fin q /\ (0 < q)%R) ys ->
    (0 < p)%R ->
    (top = Inf true \/ exists m, top = Fin m /\ (p <= m)%R) ->
    Forall (fun d => d = NaN \/ exists r, d = Fin r /\ (-1 < r)%R)
           (drawdown_from (Fin p) top ys)
    /\ (match top with
        | Fin m => nondecreasing_from m (finite_values (wealth_from (Fin p) ys))
        | _ => nondecreasing (finite_values (wealth_from (Fin p) ys))
        end ->
        forall r, In (Fin r) (drawdown_from (Fin p) top ys) -> r = 0%R).
Proof.
  induction ys as [|y ys IH]; intros p top Hys Hp Htop.
  - split; [constructor | intros _ r []].
  - inversion Hys as [|y' ys' Hy Hys']; subst.
    assert (Hshape : top = Inf true \/ (exists m, top = Fin m))
      by (destruct Htop as [->|[m [-> _]]]; eauto).
    destruct Hy as [->|[q [-> Hq]]].
    + rewrite drawdown_from_nan by exact Hshape. rewrite wealth_from_nan.
      change (X.mul (Fin p) (Fin 1)) with (Fin (p * 1)).
      destruct (IH (p * 1)%R top Hys') as [Hok Hzero]; [lra | |].
      { destruct Htop as [->|[m [-> Hm]]]; [now left|].
        right. exists m. split; [reflexivity | lra]. }
      split; [constructor; [now left | exact Hok]|].
      simpl finite_values. intros Hmono r [Hr|Hr]; [discriminate|].
      now apply Hzero.
    + rewrite drawdown_from_fin, wealth_from_fin.
      change (X.mul (Fin p) (Fin q)) with (Fin (p * q)).
      set (w := (p * q)%R).
      assert (Hw : (0 < w)%R) by (apply Rmult_lt_0_compat; assumption).
      destruct Htop as [->|[m [-> Hm]]].
      * rewrite np_maximum_neg_inf_l, drawdown_entry by exact Hw.
        destruct (IH w (Fin w) Hys' Hw) as [Hok Hzero].
        { right. exists w. split; [reflexivity | lra]. }
        split.
        { constructor; [|exact Hok]. right. eexists. split; [reflexivity|].
          now apply ratio_above_0. }
        simpl. intros Hmono r [[= <-]|Hr]; [now apply ratio_self|].
        now apply Hzero.
      * unfold Pandas.np_maximum. simpl fisnan. simpl fleb.
        destruct (Rleb w m) eqn:E; simpl orb; cbv iota.
        -- apply Rleb_true in E. rewrite drawdown_entry by lra.
           destruct (IH w (Fin m) Hys' Hw) as [Hok Hzero].
           { right. exists m. split; [reflexivity | exact E]. }
           split.
           { constructor; [|exact Hok]. right. eexists. split; [reflexivity|].
             apply ratio_above_0; lra. }
           simpl. intros [Hmw Hmono] r [[= <-]|Hr].
           ++ assert (Ew : w = m) by lra. rewrite Ew at 1.
              apply ratio_self. lra.
           ++ apply Hzero; [|exact Hr].
              apply (nondecreasing_from_weaken w m); [exact Hmw | exact Hmono].
        -- apply Rleb_false in E. rewrite drawdown_entry by exact Hw.
           destruct (IH w (Fin w) Hys' Hw) as [Hok Hzero].
           { right. exists w. split; [reflexivity | lra]. }
           split.
           { constructor; [|exact Hok]. right. eexists. split; [reflexivity|].
             now apply ratio_above_0. }
           simpl. intros [Hmw Hmono] r [[= <-]|Hr]; [now apply ratio_self|].
           now apply Hzero.
Qed.

(** The minimum of a series is one of its entries. *)
Lemma fold_minimum_in (ds : list xreal) :
  forall acc : xreal,
    Forall (fun d => d = NaN \/ exists r, d = Fin r) ds ->
    (acc = Inf false \/ exists a, acc = Fin a) ->
    let res := fold_left Pandas.np_minimum (Pandas.fillna (Inf false) ds) acc in
    res = acc \/ In res ds.
Proof.
  induction ds as [|d ds IH]; intros acc Hds Hacc res; [now left|].
  inversion Hds as [|d' ds' Hd Hds']; subst.
  destruct Hd as [->|[r0 ->]].
  - assert (E : Pandas.np_minimum acc (Inf false) = acc)
      by (destruct Hacc as [->|[a ->]]; reflexivity).
    subst res. simpl. rewrite E.
    destruct (IH acc Hds' Hacc) as [H|H]; [now left | right; now right].
  - assert (E : Pandas.np_minimum acc (Fin r0) = acc /\ (exists a, acc = Fin a)
                \/ Pandas.np_minimum acc (Fin r0) = Fin r0).
    { destruct Hacc as [->|[a ->]]; [now right|].
      unfold Pandas.np_minimum. simpl fisnan. simpl fleb.
      destruct (Rleb a r0); simpl orb; cbv iota; [left; eauto | now right]. }
    subst res. simpl.
    destruct E as [[E Ha]|E]; rewrite E.
    + destruct (IH acc Hds' (or_intror Ha)) as [H|H];
        [now left | right; now right].
    + destruct (IH (Fin r0) Hds') as [H|H]; [right; now exists r0 | |].
      * right. left. now rewrite H.
      * right. now right.
Qed.

Lemma min_attained (ds : list xreal) :
  Forall (fun d => d = NaN \/ exists r, d = Fin r) ds ->
  (1 <= Pandas.count ds)%nat ->
  exists m, Pandas.min ds = Fin m /\ In (Fin m) ds.
Proof.
  intros Hshape Hcount. unfold Pandas.min.
  destruct (Nat.eqb_spec (Pandas.count ds) 0) as [H0|_]; [lia|].
  assert (Enp : Pandas.np_min (Pandas.fillna (Inf false) ds)
                = fold_left Pandas.np_minimum (Pandas.fillna (Inf false) ds)
                            (Inf false)).
  { destruct ds as [|d ds]; [cbv in Hcount; lia|].
    inversion Hshape as [|d' ds' Hd _]; subst.
    destruct Hd as [->|[r ->]]; reflexivity. }
  change (@fpos_inf xreal exact) with (Inf false). rewrite Enp.
  destruct (fold_minimum_spec ds (Inf false) Hshape (or_introl eq_refl))
    as [[_ [_ H0]]|[m [Hm _]]]; [lia|].
  exists m. split; [exact Hm|].
  destruct (fold_minimum_in ds (Inf false) Hshape (or_introl eq_refl))
    as [H|H]; rewrite Hm in H; [discriminate | exact H].
Qed.

(** X16.  The maximum drawdown never reaches -100% while the wealth stays
    positive, and it is 0 when the wealth never falls.  In exact
    arithmetic, for a series with at least one entry that is not missing
    in which every entry is either missing or a real number (finite, so
    not an infinity) above -1: the maximum drawdown is a real number
    above -1, and it is 0 if the wealth curve is non-decreasing over the
    dates where it is defined. *)
Theorem max_drawdown_floor :
  forall pdr : series xreal,
    Forall real_above_minus_one pdr ->
    (1 <= Pandas.count pdr)%nat ->
    exists m,
      Tracker.max_drawdown pdr = Fin m /\ (-1 < m)%R
      /\ (nondecreasing (finite_values (Tracker.wealth pdr)) -> m = 0%R).
Proof.
  intros pdr Hret Hcount. unfold Tracker.max_drawdown.
  rewrite drawdown_from_start, wealth_from_start.
  assert (Hys : Forall (fun y => y = NaN \/ exists q, y = Fin q /\ (0 < q)%R)
                       (Pandas.radd1 pdr)).
  { unfold Pandas.radd1. apply Forall_map.
    apply (Forall_impl _ (P := real_above_minus_one)); [|exact Hret].
    intros x [->|[r [-> Hr]]]; [now left|].
    right. exists (1 + r)%R. split; [reflexivity | lra]. }
  assert (Hc : Pandas.count (Pandas.radd1 pdr) = Pandas.count pdr).
  { clear. induction pdr as [|x xs IH]; [reflexivity|].
    destruct x; simpl; unfold Pandas.count in *; simpl; now rewrite ?IH. }
  destruct (drawdown_from_spec (Pandas.radd1 pdr) 1 (Inf true) Hys)
    as [_ [Hn _]]; [lra | now left |].
  destruct (drawdown_from_floor (Pandas.radd1 pdr) 1 (Inf true) Hys)
    as [Hok Hzero]; [lra | now left |].
  assert (Hshape : Forall (fun d => d = NaN \/ exists r, d = Fin r)
                     (drawdown_from (Fin 1) (Inf true) (Pandas.radd1 pdr))).
  { apply (Forall_impl _ (P := fun d => d = NaN \/ exists r, d = Fin r /\ (-1 < r)%R));
      [|exact Hok].
    intros d [->|[r [-> _]]]; eauto. }
  destruct (min_attained _ Hshape) as [m [Hm Hin]]; [lia|].
  exists m. split; [exact Hm|]. split.
  - rewrite Forall_forall in Hok.
    destruct (Hok _ Hin) as [|[r [[= <-] Hr]]]; [discriminate | exact Hr].
  - intros Hmono. exact (Hzero Hmono m Hin).
Qed.

Lemma max_drawdown_floor_witness :
  exists m,
    Tracker.max_drawdown [NaN; Fin (1 / 10); Fin (-1 / 20)] = Fin m
    /\ (-1 < m)%R
    /\ (nondecreasing
          (finite_values (Tracker.wealth [NaN; Fin (1 / 10); Fin (-1 / 20)]))
        -> m = 0%R).
Proof.
  apply (max_drawdown_floor [NaN; Fin (1 / 10); Fin (-1 / 20)]).
  - apply Forall_cons; [now left|].
    apply Forall_cons;
      [right; exists (1 / 10)%R; split; [reflexivity | lra]|].
    apply Forall_cons;
      [right; exists (-1 / 20)%R; split; [reflexivity | lra]|].
    apply Forall_nil.
  - cbv. lia.
Defined.

(** ** Daily returns do not depend on the unit of the prices *)

Lemma Reqb_scale (k b : R) : (0 < k)%R -> Reqb (k * b) 0 = Reqb b 0.
Proof.
  intros Hk. destruct (Reqb b 0) eqn:E.
  - apply Reqb_true in E. apply Reqb_true. subst b. lra.
  - apply Reqb_false in E. apply Reqb_false. intros H.
    apply Rmult_integral in H. destruct H; [lra | contradiction].
Qed.

Lemma Rltb_scale (k a : R) : (0 < k)%R -> Rltb (k * a) 0 = Rltb a 0.
Proof.
  intros Hk. destruct (Rltb a 0) eqn:E.
  - apply Rltb_true in E. apply Rltb_true. nra.
  - apply Rltb_false in E. apply Rltb_false. nra.
Qed.

Lemma X_scale_Inf (k : R) (s : bool) :
  (0 < k)%R -> X.mul (Fin k) (Inf s) = Inf s.
Proof.
  intros Hk. simpl.
  assert (E : Reqb k 0 = false) by (apply Reqb_false; lra).
  assert (L : Rltb k 0 = false) by (apply Rltb_false; lra).
  rewrite E, L. now destruct s.
Qed.

Lemma X_div_scale (k : R) (x y : xreal) :
  (0 < k)%R ->
  X.div (X.mul (Fin k) x) (X.mul (Fin k) y) = X.div x y.
Proof.
  intros Hk. destruct x as [a|s|], y as [b|s'|];
    rewrite ?X_scale_Inf by exact Hk; try reflexivity.
  - simpl. rewrite Reqb_scale, Reqb_scale, Rltb_scale by exact Hk.
    destruct (Reqb b 0) eqn:E; [reflexivity|].
    apply Reqb_false in E. f_equal. field. split; lra.
  - simpl. now rewrite Rltb_scale.
Qed.

Lemma map2_map_both {A B C : Type} (f : B -> B -> C) (g : A -> B)
    (f' : A -> A -> C) (xs ys : list A) :
  (forall x y, f (g x) (g y) = f' x y) ->
  map2 f (map g xs) (map g ys) = map2 f' xs ys.
Proof.
  intros H. revert ys. induction xs as [|x xs IH]; intros [|y ys]; simpl;
    try reflexivity. now rewrite H, IH.
Qed.

Lemma pct_change_scale (k : R) (xs : series xreal) :
  (0 < k)%R ->
  Pandas.pct_change (map (X.mul (Fin k)) xs) = Pandas.pct_change xs.
Proof.
  intros Hk. unfold Pandas.pct_change, Pandas.shift.
  rewrite length_map.
  change (fnan :: map (X.mul (Fin k)) xs)
    with (map (X.mul (Fin k)) (NaN :: xs)).
  rewrite firstn_map. apply map2_map_both.
  intros x y. change (@fsub xreal exact) with X.sub.
  change (@fdiv xreal exact) with X.div. now rewrite X_div_scale.
Qed.

(** X17.  Daily returns do not depend on the unit of the prices.  In exact
    arithmetic, multiplying all prices of each ticker by a positive
    factor of its own leaves the table of daily returns, and with it
    everything computed from it, unchanged. *)
Theorem daily_returns_scale_free :
  forall (adj_close : frame xreal) (k : string -> R),
    (forall l, In l (Pandas.columns adj_close) -> (0 < k l)%R) ->
    Tracker.daily_returns
      (map (fun c => (fst c, map (X.mul (Fin (k (fst c)))) (snd c)))
           adj_close)
    = Tracker.daily_returns adj_close.
Proof.
  intros adj_close k Hk. unfold Tracker.daily_returns, Pandas.per_column.
  rewrite map_map. apply map_ext_in. intros [l c] Hin. simpl.
  f_equal. apply pct_change_scale. apply Hk.
  unfold Pandas.columns. change l with (fst (l, c)). now apply in_map.
Qed.

Lemma daily_returns_scale_free_witness :
  Tracker.daily_returns
    (map (fun c => (fst c, map (X.mul (Fin ((fun _ => 2%R) (fst c)))) (snd c)))
         [("A"%string, [Fin 100; Fin 110; NaN; Fin 0; Fin 5])])
  = Tracker.daily_returns
      [("A"%string, [Fin 100; Fin 110; NaN; Fin 0; Fin 5])].
Proof.
  apply (daily_returns_scale_free
           [("A"%string, [Fin 100; Fin 110; NaN; Fin 0; Fin 5])]
           (fun _ => 2%R)).
  intros l _. lra.
Defined.

(** ** The weight that is reported *)

(** X18.  The first token that is not a number is the one reported.  When
    the tokens before it all parse, the run ends on the [ValueError] for
    that token, stripped of its blanks, whatever comes after it. *)
Theorem first_bad_weight_reported :
  forall (F : Type) (SF : Scalar F) (py_float : string -> option F)
         (provider : list string -> Tracker.period -> option (frame F))
         (etfs : string) (p : Tracker.period) (weights_input : string)
         (before after : list string) (bad : string),
    PyStr.split PyStr.comma weights_input = before ++ bad :: after ->
    Forall (fun w => py_float (PyStr.strip w) <> None) before ->
    py_float (PyStr.strip bad) = None ->
    Tracker.run py_float provider etfs p weights_input
    = (header, Tracker.Raised (Tracker.FloatValueError (PyStr.strip bad))).
Proof.
  intros F SF py_float provider etfs p weights_input before after bad
    Hsplit Hbefore Hbad.
  rewrite run_cases. unfold Tracker.weights_list. rewrite Hsplit.
  assert (E : Tracker.floats py_float (before ++ bad :: after)
              = inl (PyStr.strip bad)).
  { clear Hsplit.
    induction Hbefore as [|w ws Hw _ IH]; cbn [app Tracker.floats].
    - now rewrite Hbad.
    - destruct (py_float (PyStr.strip w)); [|contradiction].
      now rewrite IH. }
  now rewrite E.
Qed.

Lemma first_bad_weight_reported_witness :
  Tracker.run decimal_float (fun _ _ => None) "a, b, c" Tracker.P2y
    "0.5,  x1 , y2"
  = (header, Tracker.Raised (Tracker.FloatValueError (PyStr.strip "  x1 "))).
Proof.
  apply (first_bad_weight_reported float binary64 decimal_float
           (fun _ _ => None) "a, b, c" Tracker.P2y "0.5,  x1 , y2"
           ["0.5"%string] [" y2"%string] "  x1 "%string).
  - reflexivity.
  - constructor; [vm_compute; discriminate | constructor].
  - reflexivity.
Defined.
